(** * Interest calculator: the component of [src/app.component.ts]

    A shallow embedding of [AppComponent]: its signals become the fields of a
    state record, its methods become computations in a small state-and-exception
    monad, and the two things the component leaves to the platform (the timer
    queue of [setTimeout] and the scheduling of the Angular [effect]) are made
    explicit in the state.

    Numbers are JavaScript numbers, that is IEEE 754 binary64 values: they are
    modelled by Rocq's primitive floats, whose operations are the same
    round-to-nearest ones.

    The tooltip texts, the currency formatting and the PDF export only render
    what the component has computed; they are not part of the model. *)

From Stdlib Require Import List String Ascii Bool Floats Lia PeanoNat NArith.
Import ListNotations.

Set Implicit Arguments.
Set Warnings "-register-all".

(** ** The platform: values, exceptions, JSON and [localStorage] *)

Module JS.

Definition number := float.

(** [a <= b] and [a > b] on numbers; both are false when an operand is NaN. *)
Definition le (a b : number) : bool := PrimFloat.leb a b.
Definition gt (a b : number) : bool := PrimFloat.ltb b a.

(** [isNaN] *)
Definition isNaN (a : number) : bool := PrimFloat.is_nan a.

Inductive exn := SyntaxError | TypeError | DOMException.

(** A string is a sequence of UTF-16 code units. *)
Definition jsstring := list N.

(** The string a literal of ASCII characters denotes: one code unit for each. *)
Definition code_units (s : string) : jsstring :=
  map N_of_ascii (list_ascii_of_string s).

(** Equality of strings: the same code units. *)
Fixpoint jsstring_eqb (a b : jsstring) : bool :=
  match a, b with
  | [], [] => true
  | x :: a', y :: b' => N.eqb x y && jsstring_eqb a' b'
  | _, _ => false
  end.

(** The values that [JSON.parse] can return and that the component stores. *)
Inductive value :=
| VNull
| VBool (b : bool)
| VNum (x : number)
| VStr (s : jsstring)
| VArr (items : list value)
| VObj (fields : list (string * value)).

(** [Object.is] on the values above. Arrays and objects are compared by
    identity in JavaScript; every array or object handed to a signal by the
    component is freshly allocated, so it is never the one already stored. *)
Definition sameValue (a b : value) : bool :=
  match a, b with
  | VNull, VNull => true
  | VBool x, VBool y => Bool.eqb x y
  | VNum x, VNum y => PrimFloat.Leibniz.eqb x y
  | VStr x, VStr y => jsstring_eqb x y
  | _, _ => false
  end.

(** What a number becomes when it is written by [JSON.stringify] and read back
    by [JSON.parse]: NaN and the infinities are written as [null], negative
    zero is written as [0], every other number is written with enough digits
    to be read back unchanged. *)
Definition json_number (x : number) : value :=
  match PrimFloat.classify x with
  | NaN | PInf | NInf => VNull
  | NZero => VNum 0%float
  | _ => VNum x
  end.

(** [JSON.parse (JSON.stringify v)], as a function on values. *)
Fixpoint json_image (v : value) : value :=
  match v with
  | VNum x => json_number x
  | VArr items => VArr (map json_image items)
  | VObj fields =>
      VObj (map (fun kv => match kv with (k, w) => (k, json_image w) end) fields)
  | _ => v
  end.

(** The strings kept in the storage slot. The component only tests such a
    string for truthiness and passes it to [JSON.parse], so a string is
    represented by what these two observe: the empty string, a non-empty
    string that is not a JSON text, or a JSON text, identified with the value
    it denotes. *)
Inductive text :=
| Empty
| Garbage
| Doc (v : value).

Definition JSON_stringify (v : value) : text := Doc (json_image v).

Definition JSON_parse (t : text) : exn + value :=
  match t with
  | Doc v => inr v
  | Empty | Garbage => inl SyntaxError
  end.

(** Truthiness of a [string | null]. *)
Definition truthy (o : option text) : bool :=
  match o with
  | None | Some Empty => false
  | Some _ => true
  end.

(** [localStorage], restricted to the one key the component uses. Access may
    be denied altogether ([blocked]), and writing may fail for lack of space
    ([full]); both make the call throw. *)
Record Storage := mkStorage {
  item : option text;
  blocked : bool;
  full : bool
}.

Definition getItem (st : Storage) : exn + option text :=
  if blocked st then inl DOMException else inr (item st).

Definition setItem (t : text) (st : Storage) : exn + Storage :=
  if blocked st || full st then inl DOMException
  else inr (mkStorage (Some t) (blocked st) (full st)).

(** The two halves of a code point outside the basic plane. *)
Definition is_high_surrogate (u : N) : bool := N.leb 55296 u && N.leb u 56319.
Definition is_low_surrogate (u : N) : bool := N.leb 56320 u && N.leb u 57343.

(** The strings a string iterator yields, one for each code point: a high
    surrogate followed by a low one makes one string of two code units, any
    other code unit makes a string of its own. *)
Fixpoint code_points (s : jsstring) : list jsstring :=
  match s with
  | [] => []
  | u :: rest =>
      match rest with
      | v :: rest' =>
          if is_high_surrogate u && is_low_surrogate v
          then [u; v] :: code_points rest'
          else [u] :: code_points rest
      | [] => [[u]]
      end
  end.

(** [s.slice(0, 9)] on a string keeps its first nine code units; spread into
    an array literal, it gives one string for each code point. *)
Definition spread_string (s : jsstring) : list value :=
  map VStr (code_points (firstn 9 s)).

(** [...history.slice(0, 9)]: arrays and strings have a [slice] method, on
    anything else the call throws a [TypeError]. *)
Definition spread_slice (history : value) : exn + list value :=
  match history with
  | VArr items => inr (firstn 9 items)
  | VStr s => inr (spread_string s)
  | _ => inl TypeError
  end.

End JS.

Import JS.

(** ** The data model *)

Inductive TimeUnit := years | months.

Record CompoundDetail := mkCompoundDetail {
  interest : number;
  total : number
}.

Module CalculationResult.
Record t := mk {
  principal : number;
  rate : number;
  time : number;
  timeUnit : TimeUnit;
  compoundFrequency : number;
  simpleInterest : number;
  compoundDetail : CompoundDetail;
  totalSimple : number;
  timestamp : number
}.
End CalculationResult.

Definition timeUnit_name (u : TimeUnit) : string :=
  match u with years => "years" | months => "months" end.

(** A result as the object it is at run time; the fields are in the order of the
    object literal in [calculate]. *)
Definition to_object (r : CalculationResult.t) : value :=
  VObj [ ("principal", VNum (CalculationResult.principal r));
         ("rate", VNum (CalculationResult.rate r));
         ("time", VNum (CalculationResult.time r));
         ("timeUnit", VStr (code_units (timeUnit_name (CalculationResult.timeUnit r))));
         ("compoundFrequency", VNum (CalculationResult.compoundFrequency r));
         ("simpleInterest", VNum (CalculationResult.simpleInterest r));
         ("compoundDetail",
           VObj [ ("interest", VNum (interest (CalculationResult.compoundDetail r)));
                  ("total", VNum (total (CalculationResult.compoundDetail r))) ]);
         ("totalSimple", VNum (CalculationResult.totalSimple r));
         ("timestamp", VNum (CalculationResult.timestamp r)) ]%string.

(** The constants a pending [setTimeout] callback of [calculate] has captured. *)
Record Timer := mkTimer {
  captured_p : number;
  captured_r : number;
  captured_t : number;
  captured_n : number
}.

(** The component: its signals, then the platform state it acts on. *)
Record State := mkState {
  principal : option number;
  rate : option number;
  time : option number;
  timeUnit : TimeUnit;
  compoundFrequency : number;
  isLoading : bool;
  activeTooltip : option string;
  calculationResult : option CalculationResult.t;
  calculationHistory : value;
  (* the history effect is scheduled and has not run yet *)
  effectPending : bool;
  (* callbacks handed to setTimeout, oldest first *)
  timers : list Timer;
  localStorage : Storage;
  (* messages of console.error, newest first *)
  console : list string
}.

(** ** Computations: state that survives an exception *)

Inductive completion (A : Type) :=
| Return (a : A)
| Throw (e : exn).
Arguments Return {A} a.
Arguments Throw {A} e.

Definition M (A : Type) := State -> completion A * State.

Definition ret {A} (a : A) : M A := fun s => (Return a, s).

Definition throw {A} (e : exn) : M A := fun s => (Throw e, s).

Definition bind {A B} (m : M A) (k : A -> M B) : M B :=
  fun s => match m s with
           | (Return a, s') => k a s'
           | (Throw e, s') => (Throw e, s')
           end.

Definition try_catch {A} (body : M A) (handler : exn -> M A) : M A :=
  fun s => match body s with
           | (Return a, s') => (Return a, s')
           | (Throw e, s') => handler e s'
           end.

Definition lift {A} (r : exn + A) : M A :=
  match r with inl e => throw e | inr a => ret a end.

Definition read {A} (f : State -> A) : M A := fun s => (Return (f s), s).

Definition write (f : State -> State) : M unit := fun s => (Return tt, f s).

Declare Scope js_scope.
Delimit Scope js_scope with js.
Notation "x <- m ;; k" := (bind m (fun x => k))
  (at level 61, m at next level, right associativity) : js_scope.
Notation "m ;; k" := (bind m (fun _ => k))
  (at level 61, right associativity) : js_scope.
Notation "'try' b 'catch' h" := (try_catch b h)
  (at level 62, b at level 61, h at level 61) : js_scope.

Definition exec {A} (m : M A) (s : State) : State := snd (m s).

Definition returns {A} (m : M A) (s : State) : Prop :=
  exists a, fst (m s) = Return a.

(** ** The signals

    Writing a signal notifies the effect that reads it when the new value is not
    the same as the old one ([Object.is]). Only [calculationHistory] is read by
    an effect. *)

Definition set_principal (v : option number) (s : State) : State :=
  mkState v (rate s) (time s) (timeUnit s) (compoundFrequency s) (isLoading s)
    (activeTooltip s) (calculationResult s) (calculationHistory s)
    (effectPending s) (timers s) (localStorage s) (console s).

Definition set_rate (v : option number) (s : State) : State :=
  mkState (principal s) v (time s) (timeUnit s) (compoundFrequency s) (isLoading s)
    (activeTooltip s) (calculationResult s) (calculationHistory s)
    (effectPending s) (timers s) (localStorage s) (console s).

Definition set_time (v : option number) (s : State) : State :=
  mkState (principal s) (rate s) v (timeUnit s) (compoundFrequency s) (isLoading s)
    (activeTooltip s) (calculationResult s) (calculationHistory s)
    (effectPending s) (timers s) (localStorage s) (console s).

Definition set_timeUnit (v : TimeUnit) (s : State) : State :=
  mkState (principal s) (rate s) (time s) v (compoundFrequency s) (isLoading s)
    (activeTooltip s) (calculationResult s) (calculationHistory s)
    (effectPending s) (timers s) (localStorage s) (console s).

Definition set_compoundFrequency (v : number) (s : State) : State :=
  mkState (principal s) (rate s) (time s) (timeUnit s) v (isLoading s)
    (activeTooltip s) (calculationResult s) (calculationHistory s)
    (effectPending s) (timers s) (localStorage s) (console s).

Definition set_isLoading (v : bool) (s : State) : State :=
  mkState (principal s) (rate s) (time s) (timeUnit s) (compoundFrequency s) v
    (activeTooltip s) (calculationResult s) (calculationHistory s)
    (effectPending s) (timers s) (localStorage s) (console s).

Definition set_activeTooltip (v : option string) (s : State) : State :=
  mkState (principal s) (rate s) (time s) (timeUnit s) (compoundFrequency s) (isLoading s)
    v (calculationResult s) (calculationHistory s)
    (effectPending s) (timers s) (localStorage s) (console s).

Definition set_calculationResult (v : option CalculationResult.t) (s : State) : State :=
  mkState (principal s) (rate s) (time s) (timeUnit s) (compoundFrequency s) (isLoading s)
    (activeTooltip s) v (calculationHistory s)
    (effectPending s) (timers s) (localStorage s) (console s).

Definition set_calculationHistory (v : value) (s : State) : State :=
  mkState (principal s) (rate s) (time s) (timeUnit s) (compoundFrequency s) (isLoading s)
    (activeTooltip s) (calculationResult s) v
    (effectPending s || negb (sameValue (calculationHistory s) v))
    (timers s) (localStorage s) (console s).

Definition set_effectPending (v : bool) (s : State) : State :=
  mkState (principal s) (rate s) (time s) (timeUnit s) (compoundFrequency s) (isLoading s)
    (activeTooltip s) (calculationResult s) (calculationHistory s)
    v (timers s) (localStorage s) (console s).

Definition set_timers (v : list Timer) (s : State) : State :=
  mkState (principal s) (rate s) (time s) (timeUnit s) (compoundFrequency s) (isLoading s)
    (activeTooltip s) (calculationResult s) (calculationHistory s)
    (effectPending s) v (localStorage s) (console s).

Definition set_localStorage (v : Storage) (s : State) : State :=
  mkState (principal s) (rate s) (time s) (timeUnit s) (compoundFrequency s) (isLoading s)
    (activeTooltip s) (calculationResult s) (calculationHistory s)
    (effectPending s) (timers s) v (console s).

Definition set_console (v : list string) (s : State) : State :=
  mkState (principal s) (rate s) (time s) (timeUnit s) (compoundFrequency s) (isLoading s)
    (activeTooltip s) (calculationResult s) (calculationHistory s)
    (effectPending s) (timers s) (localStorage s) v.

(** ** Platform calls, as computations *)

Local Open Scope js_scope.

Definition localStorage_getItem : M (option text) :=
  st <- read localStorage ;; lift (getItem st).

Definition localStorage_setItem (t : text) : M unit :=
  st <- read localStorage ;;
  st' <- lift (setItem t st) ;;
  write (set_localStorage st').

Definition console_error (msg : string) : M unit :=
  write (fun s => set_console (msg :: console s) s).

Definition setTimeout (tm : Timer) : M unit :=
  write (fun s => set_timers (timers s ++ [tm]) s).

(** [signal.update(fn)]: the updater runs on the current value; if it throws,
    the signal keeps that value. *)
Definition calculationHistory_update (fn : value -> exn + value) : M unit :=
  history <- read calculationHistory ;;
  v <- lift (fn history) ;;
  write (set_calculationHistory v).

(** ** The component's methods *)

Section AppComponent.

(** [Math.pow], the one numeric function the component takes from the
    platform that primitive floats do not provide. *)
Variable Math_pow : number -> number -> number.

Local Open Scope float_scope.

(** The state the field initialisers and the constructor leave behind: the
    default inputs, no result, an empty history, and the history effect
    created and waiting for its first run. *)
Definition construct (storage : Storage) : State :=
  mkState (Some 10000) (Some 5) (Some 10) years 1 false None None (VArr [])
    true [] storage [].

(** The body of the [effect] of the constructor. *)
Definition historyEffect : M unit :=
  try (history <- read calculationHistory ;;
       localStorage_setItem (JSON_stringify history))
  catch (fun e => console_error "Could not save history to localStorage").

(** Angular runs a scheduled effect once, some time after it was notified. *)
Definition flushEffects : M unit :=
  pending <- read effectPending ;;
  if pending then write (set_effectPending false) ;; historyEffect
  else ret tt.

Definition loadHistoryFromStorage : M unit :=
  try (storedHistory <- localStorage_getItem ;;
       if truthy storedHistory then
         match storedHistory with
         | Some t => v <- lift (JSON_parse t) ;; write (set_calculationHistory v)
         | None => ret tt
         end
       else ret tt)
  catch (fun e =>
       console_error "Could not load history from localStorage" ;;
       write (set_calculationHistory (VArr []))).

(** [valueAsNumber] of the input element is the argument. *)
Definition onPrincipalChange (valueAsNumber : number) : M unit :=
  write (set_principal (if isNaN valueAsNumber then None else Some valueAsNumber)).

Definition onRateChange (valueAsNumber : number) : M unit :=
  write (set_rate (if isNaN valueAsNumber then None else Some valueAsNumber)).

Definition onTimeChange (valueAsNumber : number) : M unit :=
  write (set_time (if isNaN valueAsNumber then None else Some valueAsNumber)).

(** [Number(select.value)] is the argument. *)
Definition onFrequencyChange (n : number) : M unit :=
  write (set_compoundFrequency n).

Definition toggleTimeUnit : M unit :=
  write (fun s => set_timeUnit (match timeUnit s with years => months | months => years end) s).

Definition saveToHistory (result : CalculationResult.t) : M unit :=
  calculationHistory_update (fun history =>
    match spread_slice history with
    | inr rest => inr (VArr (to_object result :: rest))
    | inl e => inl e
    end).

(** The callback [calculate] hands to [setTimeout]; [now] is what [Date.now()]
    returns when it runs. *)
Definition calculate_callback (tm : Timer) (now : number) : M unit :=
  let p := captured_p tm in
  let r := captured_r tm in
  let t := captured_t tm in
  let n := captured_n tm in
  unit1 <- read timeUnit ;;
  let timeInYears := match unit1 with years => t | months => t / 12 end in
  let rateDecimal := r / 100 in
  let simpleInterest := p * rateDecimal * timeInYears in
  let totalSimple := p + simpleInterest in
  let compound :=
    if gt n 0 then
      let totalCompound := p * Math_pow (1 + rateDecimal / n) (n * timeInYears) in
      mkCompoundDetail (totalCompound - p) totalCompound
    else
      mkCompoundDetail 0 (p + simpleInterest) in
  unit2 <- read timeUnit ;;
  let result :=
    CalculationResult.mk p r t unit2 n simpleInterest compound totalSimple now in
  write (set_calculationResult (Some result)) ;;
  write (set_isLoading false) ;;
  saveToHistory result.

Definition calculate : M unit :=
  p <- read principal ;;
  r <- read rate ;;
  t <- read time ;;
  n <- read compoundFrequency ;;
  match p, r, t with
  | Some p, Some r, Some t =>
      if le p 0 || le r 0 || le t 0 then ret tt
      else
        write (set_isLoading true) ;;
        write (set_calculationResult None) ;;
        setTimeout (mkTimer p r t n)
  | _, _, _ => ret tt
  end.

Definition reset : M unit :=
  write (set_principal (Some 10000)) ;;
  write (set_rate (Some 5)) ;;
  write (set_time (Some 10)) ;;
  write (set_timeUnit years) ;;
  write (set_compoundFrequency 1) ;;
  write (set_calculationResult None) ;;
  write (set_activeTooltip None).

Definition clearHistory : M unit :=
  write (set_calculationHistory (VArr [])).

Definition getFrequencyText (n : number) : string :=
  if PrimFloat.eqb n 0 then "Simple"
  else if PrimFloat.eqb n 1 then "Annually"
  else if PrimFloat.eqb n 4 then "Quarterly"
  else if PrimFloat.eqb n 12 then "Monthly"
  else "N/A".

(** ** Running the component

    One turn of the event loop runs one handler to its end, then the pending
    effect. An exception that escapes a handler ends that handler only. *)

Inductive event :=
| PrincipalChange (valueAsNumber : number)
| RateChange (valueAsNumber : number)
| TimeChange (valueAsNumber : number)
| FrequencyChange (n : number)
| ToggleTimeUnit
| Calculate
| TimerFires (now : number)
| Reset
| ClearHistory
| LoadHistory
| SaveToHistory (result : CalculationResult.t)
| Idle.

(** The oldest pending callback runs first: all timers have the same delay. *)
Definition fire (now : number) : M unit :=
  pending <- read timers ;;
  match pending with
  | [] => ret tt
  | tm :: rest => write (set_timers rest) ;; calculate_callback tm now
  end.

Definition handler (ev : event) : M unit :=
  match ev with
  | PrincipalChange v => onPrincipalChange v
  | RateChange v => onRateChange v
  | TimeChange v => onTimeChange v
  | FrequencyChange n => onFrequencyChange n
  | ToggleTimeUnit => toggleTimeUnit
  | Calculate => calculate
  | TimerFires now => fire now
  | Reset => reset
  | ClearHistory => clearHistory
  | LoadHistory => loadHistoryFromStorage
  | SaveToHistory result => saveToHistory result
  | Idle => ret tt
  end.

Definition turn (ev : event) (s : State) : State :=
  exec flushEffects (exec (handler ev) s).

Definition run (evs : list event) (s : State) : State :=
  fold_left (fun s ev => turn ev s) evs s.

End AppComponent.

(** ** The vocabulary of the specification *)

Section Specification.

Variable Math_pow : number -> number -> number.

Local Open Scope float_scope.

(** An input field holds the number [v], and [v > 0]. *)
Definition positive (field : option number) (v : number) : Prop :=
  field = Some v /\ gt v 0 = true.

(** An input field is absent ([null]) or holds a number [<= 0]. *)
Definition absent_or_nonpositive (field : option number) : Prop :=
  field = None \/ exists v, field = Some v /\ le v 0 = true.

Definition valid_input (s : State) (p r t : number) : Prop :=
  positive (principal s) p /\ positive (rate s) r /\ positive (time s) t.

Definition invalid_input (s : State) : Prop :=
  absent_or_nonpositive (principal s) \/
  absent_or_nonpositive (rate s) \/
  absent_or_nonpositive (time s).

(** The time in years of [t] units. *)
Definition timeInYears (u : TimeUnit) (t : number) : number :=
  match u with months => t / 12 | years => t end.

(** [res] is a result of the calculation requested in state [s]: [calculate]
    schedules a callback there, and that callback, run at some later time in
    some later state, stores [res] in [calculationResult]. *)
Definition computes (s : State) (res : CalculationResult.t) : Prop :=
  exists tm now s', 
    timers (exec calculate s) = timers s ++ [tm] /\
    calculationResult (exec (calculate_callback Math_pow tm now) s') = Some res.




(** The storage can be read and written. *)
Definition working (st : Storage) : Prop :=
  blocked st = false /\ full st = false.

(** A stored string that [JSON.parse] rejects. *)
Definition malformed (t : text) : Prop :=
  exists e, JSON_parse t = inl e.


(** The history is an array of at most ten entries. *)
Definition within_capacity (history : value) : Prop :=
  exists items, history = VArr items /\ List.length items <= 10.

(** The storage slot is absent, unreadable as JSON, or holds an array of at
    most ten entries. *)
Definition slot_within_capacity (st : Storage) : Prop :=
  forall v, item st = Some (Doc v) -> within_capacity v.

(** Both conditions on the history and on the slot. *)
Definition capacity_respected (s : State) : Prop :=
  within_capacity (calculationHistory s) /\
  slot_within_capacity (localStorage s).

End Specification.

(** An executable stand-in for [Math.pow] on small whole exponents, by repeated
    multiplication; it serves to run the component on examples. *)
Fixpoint pow_upto (fuel : nat) (x y : number) : number :=
  match fuel with
  | O => 1%float
  | S fuel' => if le y 0%float then 1%float else (x * pow_upto fuel' x (y - 1))%float
  end.

Definition sample_pow : number -> number -> number := pow_upto 64.

(** The example inputs of the specification: the defaults of the component. *)
Definition fresh : State := construct (mkStorage None false false).

Definition sample_result : CalculationResult.t :=
  CalculationResult.mk 10000%float 5%float 10%float years 0%float 5000%float
    (mkCompoundDetail 0%float 15000%float) 15000%float 1700000000000%float.

Definition sample_now : number := 1700000000000%float.

(** The result the component shows when [calculate] is requested in state [s]
    and its callback runs at time [now]; [sample_result] if it shows none. *)
Definition outcome (s : State) (now : number) : CalculationResult.t :=
  match calculationResult (run sample_pow [Calculate; TimerFires now] s) with
  | Some res => res
  | None => sample_result
  end.

(** The examples of the specification: principal 0, which is rejected; six
    months at simple interest; and a negative frequency. *)
Definition no_principal : State := exec (onPrincipalChange 0%float) fresh.

Definition months_simple : State :=
  run sample_pow
    [PrincipalChange 1000%float; RateChange 12%float; TimeChange 6%float;
     ToggleTimeUnit; FrequencyChange 0%float] fresh.

Definition negative_frequency : State := exec (onFrequencyChange (-1)%float) fresh.

(** A session whose storage is full: a result is recorded in memory, the
    effect cannot write it, and the slot stays absent. The same with a slot that
    holds the empty string. *)
Definition unsaved : State :=
  run sample_pow [SaveToHistory sample_result] (construct (mkStorage None false true)).

Definition unsaved_empty : State :=
  run sample_pow [SaveToHistory sample_result]
    (construct (mkStorage (Some Empty) false true)).

(** A slot that holds an array of eleven results. *)
Definition eleven : list value := repeat (to_object sample_result) 11.

Definition overfull_storage : Storage :=
  mkStorage (Some (Doc (VArr eleven))) false false.


Definition overflow_result : CalculationResult.t :=
  CalculationResult.mk 0x1p+1023%float 100%float 100%float years 0%float infinity
    (mkCompoundDetail 0%float infinity) infinity 1700000000000%float.

(** ** The tooltip *)

Definition showTooltip (field : string) : M unit :=
  write (set_activeTooltip (Some field)).

Definition hideTooltip : M unit :=
  write (set_activeTooltip None).

(** The double quote character, for the text that quotes a word. *)
Definition dquote : string := String (ascii_of_nat 34) EmptyString.

(** The [computed] signal [tooltipContent]. *)
Definition tooltipContent (s : State) : option string :=
  match activeTooltip s with
  | None => None
  | Some field =>
      if String.eqb field "principal" then
        Some "Principal is the initial amount of money you borrow or invest."%string
      else if String.eqb field "rate" then
        Some "The annual interest rate is the percentage of the principal charged per year."%string
      else if String.eqb field "time" then
        Some "This is the duration for which the money is borrowed or invested."%string
      else if String.eqb field "compounding" then
        Some ("Compounding frequency is how often the interest is calculated and added to the principal. "
              ++ dquote ++ "Simple" ++ dquote ++ " interest is not compounded.")%string
      else None
  end.

(** ** More vocabulary, for the behaviour of the component as a whole *)

(** An input field does not hold NaN. *)
Definition not_nan (field : option number) : Prop :=
  forall v, field = Some v -> isNaN v = false.

Definition no_nan_input (s : State) : Prop :=
  not_nan (principal s) /\ not_nan (rate s) /\ not_nan (time s).

(** [calculate] schedules a callback in state [s]. *)
Definition accepted (s : State) : Prop :=
  exists tm, timers (exec calculate s) = timers s ++ [tm].

(** An event that neither requests a calculation nor completes one. *)
Definition keeps_timers (ev : event) : Prop :=
  match ev with
  | Calculate | TimerFires _ => False
  | _ => True
  end.

(** A value with a [slice] method. *)
Definition sliceable (v : value) : bool :=
  match v with
  | VArr _ | VStr _ => true
  | _ => false
  end.

(** The slot holds what [JSON.stringify] makes of the history. *)
Definition mirrored (s : State) : Prop :=
  item (localStorage s) = Some (JSON_stringify (calculationHistory s)).

(** A result with another timestamp. *)
Definition at_time (now : number) (r : CalculationResult.t) : CalculationResult.t :=
  CalculationResult.mk
    (CalculationResult.principal r) (CalculationResult.rate r)
    (CalculationResult.time r) (CalculationResult.timeUnit r)
    (CalculationResult.compoundFrequency r) (CalculationResult.simpleInterest r)
    (CalculationResult.compoundDetail r) (CalculationResult.totalSimple r) now.

(** * Properties *)

(** ** Comparisons of numbers *)

Section Comparisons.

Local Open Scope float_scope.

Lemma gt_zero_not_le (x : number) : gt x 0 = true -> le x 0 = false.
Proof.
unfold gt, le. rewrite ltb_spec, leb_spec.
change (Prim2SF 0) with (S754_zero false).
unfold SFltb, SFleb.
destruct (Prim2SF x) as [sg | sg | | sg m e]; simpl;
  try destruct sg; simpl; congruence.
Qed.

Lemma le_zero_not_gt (x : number) : le x 0 = true -> gt x 0 = false.
Proof.
intros H. destruct (gt x 0) eqn:G; [|reflexivity].
apply gt_zero_not_le in G. congruence.
Qed.

Lemma lt_zero_not_gt (x : number) : PrimFloat.ltb x 0 = true -> gt x 0 = false.
Proof.
unfold gt. rewrite !ltb_spec.
change (Prim2SF 0) with (S754_zero false).
unfold SFltb.
destruct (Prim2SF x) as [sg | sg | | sg m e]; simpl;
  try destruct sg; simpl; congruence.
Qed.

Lemma eq_zero_not_gt (x : number) : PrimFloat.eqb x 0 = true -> gt x 0 = false.
Proof.
unfold gt. rewrite eqb_spec, ltb_spec.
change (Prim2SF 0) with (S754_zero false).
unfold SFltb, SFeqb.
destruct (Prim2SF x) as [sg | sg | | sg m e]; simpl;
  try destruct sg; simpl; congruence.
Qed.

End Comparisons.

(** ** [calculate] and its callback *)

Section Engine.

Variable Math_pow : number -> number -> number.

Local Open Scope float_scope.

Lemma calculate_valid (s : State) (p r t : number) :
  valid_input s p r t ->
  calculate s =
    (Return tt,
     set_timers (timers s ++ [mkTimer p r t (compoundFrequency s)])
       (set_calculationResult None (set_isLoading true s))).
Proof.
  intros [[Hp Gp] [[Hr Gr] [Ht Gt]]].
  unfold calculate, bind, read. rewrite Hp, Hr, Ht.
  rewrite (gt_zero_not_le Gp), (gt_zero_not_le Gr), (gt_zero_not_le Gt).
  reflexivity.
Qed.

Lemma calculate_invalid (s : State) :
  invalid_input s -> calculate s = (Return tt, s).
Proof.
  unfold invalid_input, absent_or_nonpositive, calculate, bind, read, ret.
  intros H.
  destruct (principal s) as [p|], (rate s) as [r|], (time s) as [t|];
    try reflexivity.
  assert (E : le p 0 || le r 0 || le t 0 = true).
  { destruct H as [[H | (v & H & L)] | [[H | (v & H & L)] | [H | (v & H & L)]]];
      try discriminate; injection H as <-; rewrite L;
      rewrite ?orb_true_r; reflexivity. }
  rewrite E. reflexivity.
Qed.

(** What the callback stores, whatever the state it runs in: the last step,
    [saveToHistory], may throw, but only after the result has been stored. *)
Lemma callback_result (tm : Timer) (now : number) (s : State) :
  calculationResult (exec (calculate_callback Math_pow tm now) s) =
    Some (CalculationResult.mk
            (captured_p tm) (captured_r tm) (captured_t tm) (timeUnit s)
            (captured_n tm)
            (captured_p tm * (captured_r tm / 100)
             * timeInYears (timeUnit s) (captured_t tm))
            (if gt (captured_n tm) 0 then
               mkCompoundDetail
                 (captured_p tm
                  * Math_pow (1 + captured_r tm / 100 / captured_n tm)
                      (captured_n tm * timeInYears (timeUnit s) (captured_t tm))
                  - captured_p tm)
                 (captured_p tm
                  * Math_pow (1 + captured_r tm / 100 / captured_n tm)
                      (captured_n tm * timeInYears (timeUnit s) (captured_t tm)))
             else
               mkCompoundDetail 0
                 (captured_p tm
                  + captured_p tm * (captured_r tm / 100)
                    * timeInYears (timeUnit s) (captured_t tm)))
            (captured_p tm
             + captured_p tm * (captured_r tm / 100)
               * timeInYears (timeUnit s) (captured_t tm))
            now).
Proof.
  unfold exec, calculate_callback, saveToHistory, calculationHistory_update,
    bind, read, write, lift, timeInYears.
  cbn [fst snd timeUnit set_calculationResult set_isLoading calculationHistory].
  destruct (timeUnit s);
    destruct (spread_slice (calculationHistory s)); reflexivity.
Qed.

Lemma computes_timer (s : State) (p r t : number) (res : CalculationResult.t) :
  valid_input s p r t -> computes Math_pow s res ->
  exists now s',
    calculationResult
      (exec (calculate_callback Math_pow (mkTimer p r t (compoundFrequency s)) now) s')
    = Some res.
Proof.
  intros V (tm & now & s' & Htm & Hres).
  unfold exec in Htm. rewrite (calculate_valid V) in Htm. cbn in Htm.
  apply app_inv_head in Htm. injection Htm as <-.
  exists now, s'. exact Hres.
Qed.

End Engine.

Section Claims_engine.

Variable Math_pow : number -> number -> number.

Local Open Scope float_scope.

(** C1. With principal, rate and time all present and [> 0], whatever the
    time unit and the compounding frequency, [calculate] returns normally and
    schedules a callback which, whenever it runs, stores a result. When one
    of principal, rate and time is absent or [<= 0], [calculate] returns
    normally too, schedules nothing, leaves the stored result alone, and no
    result is ever computed for that request. *)
Theorem calculate_accepts_valid_rejects_invalid :
  (forall s p r t, valid_input s p r t ->
     fst (calculate s) = Return tt /\
     exists tm, timers (exec calculate s) = timers s ++ [tm] /\
       forall now s', exists res,
         calculationResult (exec (calculate_callback Math_pow tm now) s') = Some res)
  /\
  (forall s, invalid_input s ->
     fst (calculate s) = Return tt /\
     timers (exec calculate s) = timers s /\
     calculationResult (exec calculate s) = calculationResult s /\
     forall res, ~ computes Math_pow s res).
Proof.
  split.
  - intros s p r t V. split; [rewrite (calculate_valid V); reflexivity|].
    exists (mkTimer p r t (compoundFrequency s)).
    split; [unfold exec; rewrite (calculate_valid V); reflexivity|].
    intros now s'. rewrite callback_result. eexists. reflexivity.
  - intros s I. unfold computes, exec. rewrite (calculate_invalid I). cbn.
    repeat split.
    intros res (tm & _ & _ & Htm & _).
    apply (f_equal (@List.length Timer)) in Htm.
    rewrite length_app in Htm. cbn in Htm. lia.
Qed.

(** C2. For a valid input with compounding frequency [n > 0], the computed
    result has [compoundDetail.total = principal * (1 + (rate/100)/n) ^ (n *
    timeInYears)] and [compoundDetail.interest = compoundDetail.total -
    principal]; the time is normalised by the unit the result records. *)
Theorem compound_total_and_interest (s : State) (p r t : number)
    (res : CalculationResult.t) :
  valid_input s p r t ->
  gt (compoundFrequency s) 0 = true ->
  computes Math_pow s res ->
  total (CalculationResult.compoundDetail res) =
    p * Math_pow (1 + r / 100 / compoundFrequency s)
          (compoundFrequency s * timeInYears (CalculationResult.timeUnit res) t)
  /\ interest (CalculationResult.compoundDetail res) =
       total (CalculationResult.compoundDetail res) - p.
Proof.
  intros V N C. destruct (computes_timer V C) as (now & s' & H).
  rewrite callback_result in H. cbn [captured_p captured_r captured_t captured_n] in H.
  rewrite N in H. injection H as <-. cbn. split; reflexivity.
Qed.

(** C3. For a valid input the computed result has [simpleInterest = principal
    * (rate/100) * timeInYears] and [totalSimple = principal +
    simpleInterest], where [timeInYears] is [time/12] when the time unit is
    months and [time] when it is years. The unit is the [timeUnit] signal as
    the callback finds it when it runs, and the result records that unit. *)
Theorem simple_interest_and_total (s : State) (p r t : number)
    (tm : Timer) (now : number) (s' : State) (res : CalculationResult.t) :
  valid_input s p r t ->
  timers (exec calculate s) = timers s ++ [tm] ->
  calculationResult (exec (calculate_callback Math_pow tm now) s') = Some res ->
  (timeUnit s' = months ->
     CalculationResult.simpleInterest res = p * (r / 100) * (t / 12)) /\
  (timeUnit s' = years ->
     CalculationResult.simpleInterest res = p * (r / 100) * t) /\
  CalculationResult.totalSimple res = p + CalculationResult.simpleInterest res /\
  CalculationResult.timeUnit res = timeUnit s' /\
  CalculationResult.principal res = p /\
  CalculationResult.rate res = r /\
  CalculationResult.time res = t.
Proof.
  intros V Htm H.
  unfold exec in Htm. rewrite (calculate_valid V) in Htm. cbn in Htm.
  apply app_inv_head in Htm. injection Htm as <-.
  rewrite callback_result in H. cbn [captured_p captured_r captured_t captured_n] in H.
  injection H as <-. cbn.
  repeat split; intros ->; reflexivity.
Qed.

(** C4. For a valid input with compounding frequency [0], the computed result
    has [compoundDetail.interest = 0] and [compoundDetail.total =
    totalSimple]. *)
Theorem zero_frequency_is_simple (s : State) (p r t : number)
    (res : CalculationResult.t) :
  valid_input s p r t ->
  PrimFloat.eqb (compoundFrequency s) 0 = true ->
  computes Math_pow s res ->
  interest (CalculationResult.compoundDetail res) = 0 /\
  total (CalculationResult.compoundDetail res) = CalculationResult.totalSimple res.
Proof.
  intros V N C. destruct (computes_timer V C) as (now & s' & H).
  rewrite callback_result in H. cbn [captured_p captured_r captured_t captured_n] in H.
  rewrite (eq_zero_not_gt N) in H. injection H as <-. cbn. split; reflexivity.
Qed.

(** C9. A valid input with a negative compounding frequency is not rejected:
    [calculate] schedules its callback, and the result that callback stores
    has [compoundDetail.interest = 0] and [compoundDetail.total =
    totalSimple], the same amounts as the callback for frequency [0] run at
    the same time in the same state. The result does not depend on the power
    function: the exponentiation is not reached. *)
Theorem negative_frequency_is_simple (s : State) (p r t : number) :
  valid_input s p r t ->
  PrimFloat.ltb (compoundFrequency s) 0 = true ->
  fst (calculate s) = Return tt /\
  timers (exec calculate s) = timers s ++ [mkTimer p r t (compoundFrequency s)] /\
  forall now s', exists res res0,
    calculationResult
      (exec (calculate_callback Math_pow (mkTimer p r t (compoundFrequency s)) now) s')
      = Some res /\
    calculationResult (exec (calculate_callback Math_pow (mkTimer p r t 0) now) s')
      = Some res0 /\
    interest (CalculationResult.compoundDetail res) = 0 /\
    total (CalculationResult.compoundDetail res) = CalculationResult.totalSimple res /\
    CalculationResult.compoundDetail res = CalculationResult.compoundDetail res0 /\
    CalculationResult.simpleInterest res = CalculationResult.simpleInterest res0 /\
    CalculationResult.totalSimple res = CalculationResult.totalSimple res0 /\
    forall pow',
      calculationResult
        (exec (calculate_callback pow' (mkTimer p r t (compoundFrequency s)) now) s')
      = Some res.
Proof.
  intros V N. split; [rewrite (calculate_valid V); reflexivity|].
  split; [unfold exec; rewrite (calculate_valid V); reflexivity|].
  intros now s'. do 2 eexists.
  split; [apply callback_result|]. split; [apply callback_result|].
  cbn [captured_p captured_r captured_t captured_n].
  rewrite (lt_zero_not_gt N).
  change (gt 0 0) with false. cbn.
  repeat split.
  intros pow'. rewrite callback_result.
  cbn [captured_p captured_r captured_t captured_n].
  rewrite (lt_zero_not_gt N). reflexivity.
Qed.

(** C10. When [calculate] rejects its input it returns normally and leaves
    the whole state as it was: the stored result, the history, the storage
    slot, the loading flag, the pending callbacks and the pending effect. *)
Theorem rejection_changes_nothing (s : State) :
  invalid_input s ->
  calculate s = (Return tt, s) /\
  calculationResult (exec calculate s) = calculationResult s /\
  calculationHistory (exec calculate s) = calculationHistory s /\
  localStorage (exec calculate s) = localStorage s /\
  isLoading (exec calculate s) = isLoading s.
Proof.
  intros I. unfold exec. rewrite (calculate_invalid I). repeat split.
Qed.

End Claims_engine.

(** ** The history store *)

Ltac step_m :=
  unfold exec, flushEffects, historyEffect, loadHistoryFromStorage, saveToHistory,
    clearHistory, calculationHistory_update, localStorage_getItem,
    localStorage_setItem, console_error, setTimeout, try_catch, bind, read, write,
    lift, ret, throw, getItem, setItem; cbn.

Ltac case_if :=
  match goal with |- context [if ?c then _ else _] => destruct c end.

Lemma flush_history (s : State) :
  calculationHistory (exec flushEffects s) = calculationHistory s.
Proof.
  step_m. destruct (effectPending s); cbn; [|reflexivity].
  destruct (blocked (localStorage s) || full (localStorage s)); reflexivity.
Qed.

(** The effect leaves the storage alone, or writes the whole history to it. *)
Lemma flush_storage (s : State) :
  localStorage (exec flushEffects s) = localStorage s \/
  (effectPending s = true /\
   blocked (localStorage s) = false /\ full (localStorage s) = false /\
   localStorage (exec flushEffects s) =
     mkStorage (Some (JSON_stringify (calculationHistory s))) false false).
Proof.
  step_m. destruct (effectPending s); cbn; [|left; reflexivity].
  destruct (blocked (localStorage s)) eqn:B, (full (localStorage s)) eqn:F; cbn;
    try (left; reflexivity).
  right. repeat split.
Qed.

Lemma flush_writes (s : State) :
  effectPending s = true -> working (localStorage s) ->
  localStorage (exec flushEffects s) =
    mkStorage (Some (JSON_stringify (calculationHistory s))) false false.
Proof.
  intros P [B F]. step_m. rewrite P. cbn. rewrite B, F. reflexivity.
Qed.

Lemma clear_history (s : State) :
  clearHistory s = (Return tt, set_calculationHistory (VArr []) s).
Proof. reflexivity. Qed.

Lemma save_to_array (result : CalculationResult.t) (s : State) (items : list value) :
  calculationHistory s = VArr items ->
  saveToHistory result s =
    (Return tt, set_calculationHistory (VArr (to_object result :: firstn 9 items)) s).
Proof.
  intros H. step_m. rewrite H. reflexivity.
Qed.

(** [loadHistoryFromStorage] never lets an exception out. *)
Lemma load_returns (s : State) : returns loadHistoryFromStorage s.
Proof.
  unfold returns. step_m.
  destruct (blocked (localStorage s)); cbn; [eexists; reflexivity|].
  destruct (item (localStorage s)) as [[| |v]|]; cbn; eexists; reflexivity.
Qed.

(** What [loadHistoryFromStorage] does, by the content of the slot. *)
Lemma load_document (s : State) (v : value) :
  blocked (localStorage s) = false ->
  item (localStorage s) = Some (Doc v) ->
  exec loadHistoryFromStorage s = set_calculationHistory v s.
Proof.
  intros B I. step_m. rewrite B. cbn. rewrite I. reflexivity.
Qed.

Lemma load_falsy (s : State) :
  blocked (localStorage s) = false ->
  truthy (item (localStorage s)) = false ->
  exec loadHistoryFromStorage s = s.
Proof.
  intros B I. step_m. rewrite B. cbn.
  destruct (item (localStorage s)) as [[| |v]|]; try discriminate; reflexivity.
Qed.

Lemma load_garbage (s : State) :
  blocked (localStorage s) = true \/ item (localStorage s) = Some Garbage ->
  exec loadHistoryFromStorage s =
    set_calculationHistory (VArr [])
      (set_console ("Could not load history from localStorage"%string :: console s) s).
Proof.
  intros H. step_m.
  destruct (blocked (localStorage s)); cbn; [reflexivity|].
  destruct H as [H|H]; [discriminate|]. rewrite H. reflexivity.
Qed.

Lemma load_storage (s : State) :
  localStorage (exec loadHistoryFromStorage s) = localStorage s.
Proof.
  step_m.
  destruct (blocked (localStorage s)); cbn; [reflexivity|].
  destruct (item (localStorage s)) as [[| |v]|]; reflexivity.
Qed.

Lemma firstn_app_firstn {A} (n : nat) (a b : list A) :
  firstn n (a ++ firstn n b) = firstn n (a ++ b).
Proof.
  rewrite !firstn_app, firstn_firstn.
  f_equal. f_equal. lia.
Qed.

Lemma json_image_capacity (v : value) :
  within_capacity v -> within_capacity (json_image v).
Proof.
  intros (items & -> & L). exists (map json_image items).
  split; [reflexivity|]. rewrite length_map. exact L.
Qed.

Section Store.

Variable Math_pow : number -> number -> number.

Ltac step_h :=
  unfold handler, fire, calculate, calculate_callback, reset, toggleTimeUnit,
    onPrincipalChange, onRateChange, onTimeChange, onFrequencyChange;
  step_m.

(** No handler writes to the storage: only the effect does. *)
Lemma handler_storage (ev : event) (s : State) :
  localStorage (exec (handler Math_pow ev) s) = localStorage s.
Proof.
  destruct ev; try reflexivity.
  - step_h. destruct (principal s), (rate s), (time s); try reflexivity.
    case_if; reflexivity.
  - step_h. destruct (timers s); [reflexivity|]. cbn.
    destruct (spread_slice (calculationHistory s)); reflexivity.
  - apply load_storage.
  - step_h. destruct (spread_slice (calculationHistory s)); reflexivity.
Qed.

Lemma handler_capacity (ev : event) (s : State) :
  capacity_respected s ->
  within_capacity (calculationHistory (exec (handler Math_pow ev) s)).
Proof.
  intros [(items & H & L) Hslot].
  assert (Hs : within_capacity (calculationHistory s)) by (exists items; auto).
  assert (Hsave : forall o, within_capacity (VArr (o :: firstn 9 items))).
  { intros o. eexists. split; [reflexivity|].
    cbn [List.length]. rewrite length_firstn. lia. }
  destruct ev; try exact Hs.
  - step_h. destruct (principal s), (rate s), (time s); try exact Hs.
    case_if; exact Hs.
  - step_h. destruct (timers s); [exact Hs|]. cbn.
    rewrite H. cbn. apply Hsave.
  - exists []. split; [reflexivity|cbn; lia].
  - step_h. destruct (blocked (localStorage s)); cbn.
    + exists []. split; [reflexivity|cbn; lia].
    + destruct (item (localStorage s)) as [[| |v]|] eqn:I; cbn; try exact Hs.
      * exists []. split; [reflexivity|cbn; lia].
      * apply Hslot. exact I.
  - step_h. rewrite H. cbn. apply Hsave.
Qed.

Lemma turn_capacity (ev : event) (s : State) :
  capacity_respected s -> capacity_respected (turn Math_pow ev s).
Proof.
  intros C. pose proof (handler_capacity ev C) as Hh.
  unfold turn, capacity_respected. rewrite flush_history. split; [exact Hh|].
  destruct (flush_storage (exec (handler Math_pow ev) s)) as [E | (_ & _ & _ & E)];
    rewrite E.
  - rewrite handler_storage. apply C.
  - intros v Hv. cbn in Hv. injection Hv as <-.
    apply json_image_capacity. exact Hh.
Qed.

Lemma run_cons (ev : event) (evs : list event) (s : State) :
  run Math_pow (ev :: evs) s = run Math_pow evs (turn Math_pow ev s).
Proof. reflexivity. Qed.

Lemma run_snoc (ev : event) (evs : list event) (s : State) :
  run Math_pow (evs ++ [ev]) s = turn Math_pow ev (run Math_pow evs s).
Proof. unfold run. rewrite fold_left_app. reflexivity. Qed.

Lemma run_capacity (evs : list event) (s : State) :
  capacity_respected s -> capacity_respected (run Math_pow evs s).
Proof.
  revert s. induction evs as [|ev evs IH]; intros s C; [exact C|].
  cbn. apply IH. apply turn_capacity. exact C.
Qed.

Lemma turn_save (result : CalculationResult.t) (s : State) (items : list value) :
  calculationHistory s = VArr items ->
  calculationHistory (turn Math_pow (SaveToHistory result) s) =
    VArr (to_object result :: firstn 9 items).
Proof.
  intros H. unfold turn. rewrite flush_history. cbn [handler].
  unfold exec. rewrite (save_to_array result s H). reflexivity.
Qed.

(** Recording a list of results, oldest first, keeps the ten newest. *)
Lemma run_saves (results : list CalculationResult.t) (s : State) (items : list value) :
  calculationHistory s = VArr items -> List.length items <= 10 ->
  calculationHistory (run Math_pow (map SaveToHistory results) s) =
    VArr (firstn 10 (rev (map to_object results) ++ items)).
Proof.
  revert s items. induction results as [|r results IH]; intros s items H L.
  - cbn [map rev app run fold_left]. rewrite firstn_all2 by exact L. exact H.
  - cbn [map]. rewrite run_cons.
    rewrite (IH _ _ (turn_save r s H)).
    + cbn [rev]. rewrite <- app_assoc. cbn [app].
      change (to_object r :: firstn 9 items) with (firstn 10 (to_object r :: items)).
      rewrite firstn_app_firstn. reflexivity.
    + cbn [List.length]. rewrite length_firstn. lia.
Qed.

(** C5, as amended. The history is an array of at most ten entries after any
    sequence of events of the component (among them record, clear and load),
    provided it was one before and the storage slot, where it holds a JSON
    text, holds an array of at most ten entries; the program itself never
    writes anything else to the slot. And after recording [r1 .. r12] in this
    order on an empty history, the history is [r12; r11; ...; r3]. *)
Theorem history_capacity :
  (forall s evs, capacity_respected s ->
     capacity_respected (run Math_pow evs s)) /\
  (forall s r1 r2 r3 r4 r5 r6 r7 r8 r9 r10 r11 r12,
     calculationHistory s = VArr [] ->
     calculationHistory
       (run Math_pow
          (map SaveToHistory [r1; r2; r3; r4; r5; r6; r7; r8; r9; r10; r11; r12]) s)
     = VArr (map to_object [r12; r11; r10; r9; r8; r7; r6; r5; r4; r3])).
Proof.
  split.
  - intros s evs C. apply run_capacity. exact C.
  - intros s r1 r2 r3 r4 r5 r6 r7 r8 r9 r10 r11 r12 H.
    rewrite (run_saves _ s H) by (cbn; lia). reflexivity.
Qed.

End Store.

(** ** Persistence *)





Section Persistence.

Variable Math_pow : number -> number -> number.




(** C7, as amended. When the storage can be read and the slot is absent or
    holds the empty string, [loadHistoryFromStorage] leaves the state as it is:
    the history is the empty one only if it was, as it is at start-up, where
    the constructor calls it (whether or not the history effect ran first).
    When the slot holds a non-empty string that fails to parse, the history is
    reset to the empty one, in any state. No exception ever leaves
    [loadHistoryFromStorage]. *)
Theorem load_absent_or_malformed :
  (forall s,
     blocked (localStorage s) = false ->
     item (localStorage s) = None \/ item (localStorage s) = Some Empty ->
     exec loadHistoryFromStorage s = s) /\
  (forall st,
     item st = None \/ (exists t, item st = Some t /\ malformed t) ->
     calculationHistory (exec loadHistoryFromStorage (construct st)) = VArr [] /\
     calculationHistory
       (exec loadHistoryFromStorage (exec flushEffects (construct st))) = VArr []) /\
  (forall s t,
     item (localStorage s) = Some t -> malformed t -> t <> Empty ->
     calculationHistory (exec loadHistoryFromStorage s) = VArr []) /\
  (forall s, returns loadHistoryFromStorage s).
Proof.
  split; [|split; [|split]].
  - intros s B H. apply load_falsy; [exact B|].
    destruct H as [-> | ->]; reflexivity.
  - intros [[[| |v]|] [|] [|]] H; cbn in H; split; try reflexivity;
      destruct H as [H | (t & H & e & P)]; try discriminate;
      injection H as <-; discriminate.
  - intros s t I (e & P) Ne. rewrite load_garbage; [reflexivity|].
    right. destruct t; [contradiction| exact I | discriminate].
  - apply load_returns.
Qed.

(** C8. [clearHistory] returns normally and leaves the empty history,
    whatever the history was; the effect that follows does not change it. *)
Theorem clear_empties_history (s : State) :
  fst (clearHistory s) = Return tt /\
  calculationHistory (exec clearHistory s) = VArr [] /\
  calculationHistory (turn Math_pow ClearHistory s) = VArr [].
Proof.
  split; [reflexivity|]. split; [reflexivity|].
  unfold turn. rewrite flush_history. reflexivity.
Qed.

End Persistence.

(** ** The claims on the examples of the specification *)

Section Examples.

Local Open Scope float_scope.

Lemma fresh_valid : valid_input fresh 10000 5 10.
Proof. repeat split. Qed.

Lemma months_simple_valid : valid_input months_simple 1000 12 6.
Proof. repeat split. Qed.

Lemma negative_frequency_valid : valid_input negative_frequency 10000 5 10.
Proof. repeat split. Qed.

Lemma no_principal_invalid : invalid_input no_principal.
Proof. left. right. exists 0. split; reflexivity. Qed.

Lemma fresh_computes : computes sample_pow fresh (outcome fresh sample_now).
Proof. exists (mkTimer 10000 5 10 1), sample_now, fresh. split; reflexivity. Qed.

Lemma months_simple_computes :
  computes sample_pow months_simple (outcome months_simple sample_now).
Proof. exists (mkTimer 1000 12 6 0), sample_now, months_simple. split; reflexivity. Qed.


(** The first example of the specification: 10000 at 5 percent for 10 years. *)
Example fresh_outcome :
  CalculationResult.simpleInterest (outcome fresh sample_now) = 5000 /\
  CalculationResult.totalSimple (outcome fresh sample_now) = 15000 /\
  CalculationResult.compoundFrequency (outcome fresh sample_now) = 1.
Proof. repeat split. Qed.

(** The callback reads the unit when it runs, not when [calculate] is called:
    a unit toggled in between is the one the result is computed with, and the
    one it records. *)
Example unit_read_by_callback :
  calculationResult
    (run sample_pow [Calculate; ToggleTimeUnit; TimerFires sample_now] fresh)
  = Some (CalculationResult.mk 10000 5 10 months 1
            (10000 * (5 / 100) * (10 / 12))
            (mkCompoundDetail
               (10000 * sample_pow (1 + 5 / 100 / 1) (1 * (10 / 12)) - 10000)
               (10000 * sample_pow (1 + 5 / 100 / 1) (1 * (10 / 12))))
            (10000 + 10000 * (5 / 100) * (10 / 12))
            sample_now).
Proof. reflexivity. Qed.

(** A rejected request leaves the loading flag down and schedules nothing. *)
Example no_principal_rejected :
  run sample_pow [Calculate; TimerFires sample_now] no_principal
  = exec flushEffects no_principal.
Proof. reflexivity. Qed.

Example frequency_texts :
  map getFrequencyText [0; 1; 4; 12; 2; -1]
  = ["Simple"; "Annually"; "Quarterly"; "Monthly"; "N/A"; "N/A"]%string.
Proof. reflexivity. Qed.


Lemma fresh_capacity : capacity_respected fresh.
Proof.
  split.
  - exists []. split; [reflexivity | cbn; lia].
  - intros v H. discriminate H.
Qed.

End Examples.

Section Witnesses.

Local Open Scope float_scope.

Lemma calculate_accepts_valid_rejects_invalid_witness :
  (valid_input fresh 10000 5 10 /\
   fst (calculate fresh) = Return tt /\
   exists tm, timers (exec calculate fresh) = timers fresh ++ [tm] /\
     forall now s', exists res,
       calculationResult (exec (calculate_callback sample_pow tm now) s') = Some res)
  /\
  (invalid_input no_principal /\
   fst (calculate no_principal) = Return tt /\
   timers (exec calculate no_principal) = timers no_principal /\
   calculationResult (exec calculate no_principal) = calculationResult no_principal /\
   forall res, ~ computes sample_pow no_principal res).
Proof.
  split.
  - split; [exact fresh_valid|].
    exact (proj1 (calculate_accepts_valid_rejects_invalid sample_pow)
             fresh 10000 5 10 fresh_valid).
  - split; [exact no_principal_invalid|].
    exact (proj2 (calculate_accepts_valid_rejects_invalid sample_pow)
             no_principal no_principal_invalid).
Defined.

Lemma compound_total_and_interest_witness :
  total (CalculationResult.compoundDetail (outcome fresh sample_now)) =
    10000 * sample_pow (1 + 5 / 100 / 1) (1 * 10)
  /\ interest (CalculationResult.compoundDetail (outcome fresh sample_now)) =
       total (CalculationResult.compoundDetail (outcome fresh sample_now)) - 10000.
Proof.
  apply (@compound_total_and_interest sample_pow fresh 10000 5 10
           (outcome fresh sample_now)).
  - exact fresh_valid.
  - reflexivity.
  - exact fresh_computes.
Defined.

Lemma simple_interest_and_total_witness :
  (timeUnit months_simple = months /\
   CalculationResult.simpleInterest (outcome months_simple sample_now)
     = 1000 * (12 / 100) * (6 / 12) /\
   CalculationResult.simpleInterest (outcome months_simple sample_now) = 60 /\
   CalculationResult.totalSimple (outcome months_simple sample_now) = 1060 /\
   CalculationResult.timeUnit (outcome months_simple sample_now) = months) /\
  (timeUnit fresh = years /\
   CalculationResult.simpleInterest (outcome fresh sample_now)
     = 10000 * (5 / 100) * 10 /\
   CalculationResult.simpleInterest (outcome fresh sample_now) = 5000 /\
   CalculationResult.totalSimple (outcome fresh sample_now) = 15000 /\
   CalculationResult.timeUnit (outcome fresh sample_now) = years).
Proof.
  split.
  - pose proof (@simple_interest_and_total sample_pow months_simple 1000 12 6
                  (mkTimer 1000 12 6 0) sample_now months_simple
                  (outcome months_simple sample_now)
                  months_simple_valid eq_refl eq_refl) as (M & _ & T & U & _).
    split; [reflexivity|]. split; [apply M; reflexivity|].
    split; [rewrite (M eq_refl); reflexivity|].
    split; [rewrite T, (M eq_refl); reflexivity | exact U].
  - pose proof (@simple_interest_and_total sample_pow fresh 10000 5 10
                  (mkTimer 10000 5 10 1) sample_now fresh
                  (outcome fresh sample_now)
                  fresh_valid eq_refl eq_refl) as (_ & Y & T & U & _).
    split; [reflexivity|]. split; [apply Y; reflexivity|].
    split; [rewrite (Y eq_refl); reflexivity|].
    split; [rewrite T, (Y eq_refl); reflexivity | exact U].
Defined.

Lemma zero_frequency_is_simple_witness :
  interest (CalculationResult.compoundDetail (outcome months_simple sample_now)) = 0 /\
  total (CalculationResult.compoundDetail (outcome months_simple sample_now)) =
    CalculationResult.totalSimple (outcome months_simple sample_now).
Proof.
  apply (@zero_frequency_is_simple sample_pow months_simple 1000 12 6
           (outcome months_simple sample_now)).
  - exact months_simple_valid.
  - reflexivity.
  - exact months_simple_computes.
Defined.

Lemma negative_frequency_is_simple_witness :
  compoundFrequency negative_frequency = -1 /\
  fst (calculate negative_frequency) = Return tt /\
  timers (exec calculate negative_frequency) = [mkTimer 10000 5 10 (-1)] /\
  exists res,
    calculationResult
      (exec (calculate_callback sample_pow (mkTimer 10000 5 10 (-1)) sample_now) fresh)
      = Some res /\
    interest (CalculationResult.compoundDetail res) = 0 /\
    total (CalculationResult.compoundDetail res) = CalculationResult.totalSimple res.
Proof.
  destruct (@negative_frequency_is_simple sample_pow negative_frequency 10000 5 10
              negative_frequency_valid eq_refl) as (R & T & C).
  split; [reflexivity|]. split; [exact R|]. split; [exact T|].
  destruct (C sample_now fresh) as (res & res0 & H & _ & I & Tot & _).
  exists res. split; [exact H|]. split; [exact I | exact Tot].
Defined.

Lemma rejection_changes_nothing_witness :
  principal no_principal = Some 0 /\
  calculate no_principal = (Return tt, no_principal).
Proof.
  split; [reflexivity|].
  exact (proj1 (@rejection_changes_nothing no_principal no_principal_invalid)).
Defined.

Lemma history_capacity_witness :
  capacity_respected
    (run sample_pow
       [SaveToHistory sample_result; LoadHistory; Calculate;
        TimerFires sample_now; ClearHistory; LoadHistory] fresh) /\
  calculationHistory
    (run sample_pow (map SaveToHistory (repeat sample_result 12)) fresh)
  = VArr (repeat (to_object sample_result) 10).
Proof.
  split.
  - exact (proj1 (history_capacity sample_pow) fresh _ fresh_capacity).
  - exact (proj2 (history_capacity sample_pow) fresh
             sample_result sample_result sample_result sample_result
             sample_result sample_result sample_result sample_result
             sample_result sample_result sample_result sample_result eq_refl).
Defined.


Lemma load_absent_or_malformed_witness :
  exec loadHistoryFromStorage unsaved = unsaved /\
  calculationHistory
    (exec loadHistoryFromStorage (construct (mkStorage None false false))) = VArr [] /\
  calculationHistory
    (exec loadHistoryFromStorage (construct (mkStorage (Some Garbage) false false)))
    = VArr [] /\
  calculationHistory
    (exec loadHistoryFromStorage
       (exec (saveToHistory sample_result)
          (construct (mkStorage (Some Garbage) false false)))) = VArr [].
Proof.
  split; [|split; [|split]].
  - apply (proj1 load_absent_or_malformed unsaved).
    + reflexivity.
    + left. reflexivity.
  - apply (proj1 (proj2 load_absent_or_malformed) (mkStorage None false false)).
    left. reflexivity.
  - apply (proj1 (proj2 load_absent_or_malformed)
             (mkStorage (Some Garbage) false false)).
    right. exists Garbage. split; [reflexivity|]. exists SyntaxError. reflexivity.
  - apply (proj1 (proj2 (proj2 load_absent_or_malformed)) _ Garbage).
    + reflexivity.
    + exists SyntaxError. reflexivity.
    + discriminate.
Defined.

End Witnesses.

(** ** Where the specification says more than the program does *)

(** C5, as stated, fails: the slot holds an array of eleven results, written
    there before the program started; [loadHistoryFromStorage] stores what it
    parsed, all eleven entries, in the history. *)
Lemma history_capacity_counterexample :
  calculationHistory (exec loadHistoryFromStorage (construct overfull_storage))
    = VArr eleven /\
  calculationHistory (run sample_pow [LoadHistory] (construct overfull_storage))
    = VArr eleven /\
  List.length eleven = 11 /\
  ~ within_capacity
      (calculationHistory (run sample_pow [LoadHistory] (construct overfull_storage))).
Proof.
  split; [reflexivity|]. split; [reflexivity|]. split; [reflexivity|].
  intros (items & E & L).
  change (VArr eleven = VArr items) in E. injection E as <-.
  cbn in L. lia.
Qed.

(** C7, as stated, fails: a result was recorded while the storage was full, so
    the history holds one entry and the slot is absent (or holds the empty
    string, which fails to parse); [loadHistoryFromStorage] finds the slot
    falsy, skips its body, and the history keeps its entry instead of being
    the empty sequence. *)
Lemma load_absent_or_malformed_counterexample :
  (item (localStorage unsaved) = None /\
   calculationHistory unsaved = VArr [to_object sample_result] /\
   calculationHistory (exec loadHistoryFromStorage unsaved)
     = VArr [to_object sample_result] /\
   calculationHistory (exec loadHistoryFromStorage unsaved) <> VArr []) /\
  (item (localStorage unsaved_empty) = Some Empty /\
   JSON_parse Empty = inl SyntaxError /\
   calculationHistory (exec loadHistoryFromStorage unsaved_empty)
     = VArr [to_object sample_result] /\
   calculationHistory (exec loadHistoryFromStorage unsaved_empty) <> VArr []).
Proof.
  split; repeat (split; [reflexivity|]); vm_compute; discriminate.
Qed.



(** * The component as a whole *)

(** ** The effect and the fields it leaves alone *)

Lemma flush_shape (s : State) :
  exec flushEffects s =
    mkState (principal s) (rate s) (time s) (timeUnit s) (compoundFrequency s)
      (isLoading s) (activeTooltip s) (calculationResult s) (calculationHistory s)
      false (timers s)
      (localStorage (exec flushEffects s)) (console (exec flushEffects s)).
Proof.
  step_m. destruct s as [p r t u n l a res h pend tms st con]. cbn.
  destruct pend; cbn; [|reflexivity].
  destruct (blocked st || full st); reflexivity.
Qed.

Lemma flush_idle (s : State) :
  effectPending s = false -> exec flushEffects s = s.
Proof.
  intros P. step_m. rewrite P. reflexivity.
Qed.

Section Comparisons_more.

Local Open Scope float_scope.

Lemma not_nan_not_le_gt (x : number) :
  isNaN x = false -> le x 0 = false -> gt x 0 = true.
Proof.
  unfold isNaN, is_nan, gt, le. rewrite eqb_spec, ltb_spec, leb_spec.
  change (Prim2SF 0) with (S754_zero false).
  unfold SFltb, SFleb, SFeqb.
  destruct (Prim2SF x) as [sg | sg | | sg m e]; simpl;
    try destruct sg; simpl; congruence.
Qed.

Lemma eq_positive_gt (x c : number) :
  (exists m e, Prim2SF c = S754_finite false m e) ->
  PrimFloat.eqb x c = true -> gt x 0 = true.
Proof.
  intros (m & e & Hc). unfold gt. rewrite eqb_spec, ltb_spec, Hc.
  change (Prim2SF 0) with (S754_zero false).
  unfold SFltb, SFeqb.
  destruct (Prim2SF x) as [sg | sg | | sg m' e']; simpl;
    try destruct sg; simpl; congruence.
Qed.

End Comparisons_more.

(** ** Input handlers, reset and the tooltip *)

Section Inputs.

Variable Math_pow : number -> number -> number.

Local Open Scope float_scope.

(** X1. Toggling the time unit changes the unit, years to months or months to
    years, and nothing else: every other signal, the pending callbacks, the
    pending effect, the storage and the console are as before. Toggling twice
    gives back the state it started from. *)
Theorem toggle_twice (s : State) :
  exec toggleTimeUnit (exec toggleTimeUnit s) = s /\
  timeUnit (exec toggleTimeUnit s) <> timeUnit s /\
  fst (toggleTimeUnit s) = Return tt /\
  exec toggleTimeUnit s =
    mkState (principal s) (rate s) (time s)
      (match timeUnit s with years => months | months => years end)
      (compoundFrequency s) (isLoading s) (activeTooltip s) (calculationResult s)
      (calculationHistory s) (effectPending s) (timers s) (localStorage s)
      (console s).
Proof.
  destruct s as [p r t u n l a res h pend tms st con].
  destruct u; repeat split; discriminate.
Qed.

(** X2. A non-numeric entry in the principal, rate or time field is stored as
    absent, so the next [calculate] rejects: it returns with the state as the
    handler left it. *)
Theorem nan_entry_rejected (v : number) (s : State) :
  isNaN v = true ->
  principal (exec (onPrincipalChange v) s) = None /\
  rate (exec (onRateChange v) s) = None /\
  time (exec (onTimeChange v) s) = None /\
  calculate (exec (onPrincipalChange v) s) = (Return tt, exec (onPrincipalChange v) s) /\
  calculate (exec (onRateChange v) s) = (Return tt, exec (onRateChange v) s) /\
  calculate (exec (onTimeChange v) s) = (Return tt, exec (onTimeChange v) s).
Proof.
  intros N.
  assert (P : principal (exec (onPrincipalChange v) s) = None)
    by (unfold exec, onPrincipalChange, write; cbn; rewrite N; reflexivity).
  assert (R : rate (exec (onRateChange v) s) = None)
    by (unfold exec, onRateChange, write; cbn; rewrite N; reflexivity).
  assert (T : time (exec (onTimeChange v) s) = None)
    by (unfold exec, onTimeChange, write; cbn; rewrite N; reflexivity).
  repeat split; try assumption; apply calculate_invalid.
  - left. left. exact P.
  - right. left. left. exact R.
  - right. right. left. exact T.
Qed.

End Inputs.

(** ** Invariants of the states the component reaches *)

Ltac step_all :=
  unfold handler, fire, calculate, calculate_callback, reset, toggleTimeUnit,
    onPrincipalChange, onRateChange, onTimeChange, onFrequencyChange;
  step_m.

Section Reachable.

Variable Math_pow : number -> number -> number.

Local Open Scope float_scope.

Lemma run_invariant (P : State -> Prop) :
  (forall ev s, P s -> P (turn Math_pow ev s)) ->
  forall evs s, P s -> P (run Math_pow evs s).
Proof.
  intros Step evs. induction evs as [|ev evs IH]; intros s H; [exact H|].
  rewrite run_cons. apply IH, Step, H.
Qed.

Lemma not_nan_entry (v : number) :
  not_nan (if isNaN v then None else Some v).
Proof.
  intros w. destruct (isNaN v) eqn:N; intros H; [discriminate|].
  injection H as <-. exact N.
Qed.

(** Only the input handlers and [reset] write the three number fields. *)
Lemma handler_inputs (ev : event) (s : State) :
  match ev with
  | PrincipalChange _ | RateChange _ | TimeChange _ | Reset => True
  | _ =>
      principal (exec (handler Math_pow ev) s) = principal s /\
      rate (exec (handler Math_pow ev) s) = rate s /\
      time (exec (handler Math_pow ev) s) = time s
  end.
Proof.
  destruct ev; try exact I; try (repeat split; reflexivity).
  - step_all.
    destruct (principal s) eqn:Ep, (rate s) eqn:Er, (time s) eqn:Et;
      try (cbn; repeat split; assumption).
    case_if; cbn; repeat split; assumption.
  - step_all. destruct (timers s); [repeat split; reflexivity|]. cbn.
    destruct (spread_slice (calculationHistory s)); repeat split; reflexivity.
  - step_all. destruct (blocked (localStorage s)); cbn;
      [repeat split; reflexivity|].
    destruct (item (localStorage s)) as [[| |v]|]; repeat split; reflexivity.
  - step_all. destruct (spread_slice (calculationHistory s));
      repeat split; reflexivity.
Qed.

Lemma handler_no_nan (ev : event) (s : State) :
  no_nan_input s -> no_nan_input (exec (handler Math_pow ev) s).
Proof.
  intros (P & R & T). pose proof (handler_inputs ev s) as H.
  unfold no_nan_input.
  destruct ev; try (destruct H as (-> & -> & ->); repeat split; assumption).
  - repeat split; try assumption. apply not_nan_entry.
  - repeat split; try assumption. apply not_nan_entry.
  - repeat split; try assumption. apply not_nan_entry.
  - repeat split; intros w E; injection E as <-; reflexivity.
Qed.

Lemma turn_no_nan (ev : event) (s : State) :
  no_nan_input s -> no_nan_input (turn Math_pow ev s).
Proof.
  intros H. apply (handler_no_nan ev) in H.
  unfold turn. rewrite flush_shape. exact H.
Qed.

Lemma valid_or_invalid (s : State) :
  no_nan_input s -> (exists p r t, valid_input s p r t) \/ invalid_input s.
Proof.
  unfold no_nan_input, not_nan, valid_input, invalid_input, positive,
    absent_or_nonpositive.
  intros (P & R & T).
  destruct (principal s) as [p|]; [|right; left; left; reflexivity].
  destruct (rate s) as [r|]; [|right; right; left; left; reflexivity].
  destruct (time s) as [t|]; [|right; right; right; left; reflexivity].
  destruct (le p 0) eqn:Lp; [right; left; right; exists p; auto|].
  destruct (le r 0) eqn:Lr; [right; right; left; right; exists r; auto|].
  destruct (le t 0) eqn:Lt; [right; right; right; right; exists t; auto|].
  left. exists p, r, t.
  repeat split; apply not_nan_not_le_gt; auto.
Qed.

Lemma rejected_not_accepted (s : State) : invalid_input s -> ~ accepted s.
Proof.
  intros I (tm & H). unfold exec in H. rewrite (calculate_invalid I) in H.
  cbn in H. apply (f_equal (@List.length Timer)) in H.
  rewrite length_app in H. cbn in H. lia.
Qed.

Lemma valid_not_invalid (s : State) (p r t : number) :
  valid_input s p r t -> ~ invalid_input s.
Proof.
  intros V I. apply (rejected_not_accepted I).
  exists (mkTimer p r t (compoundFrequency s)).
  unfold exec. rewrite (calculate_valid V). reflexivity.
Qed.

(** X3. In every state the component reaches from its construction, the three
    number fields never hold NaN, and [calculate] schedules a callback exactly
    when principal, rate and time are all present and [> 0]; otherwise one of
    them is absent or [<= 0] and the request is rejected. *)
Theorem validation_exact (st : Storage) (evs : list event) :
  no_nan_input (run Math_pow evs (construct st)) /\
  (accepted (run Math_pow evs (construct st)) <->
     exists p r t, valid_input (run Math_pow evs (construct st)) p r t) /\
  (~ accepted (run Math_pow evs (construct st)) <->
     invalid_input (run Math_pow evs (construct st))).
Proof.
  assert (N : no_nan_input (run Math_pow evs (construct st))).
  { apply run_invariant; [exact turn_no_nan|].
    repeat split; intros w H; injection H as <-; reflexivity. }
  split; [exact N|].
  destruct (valid_or_invalid N) as [(p & r & t & V) | I].
  - assert (A : accepted (run Math_pow evs (construct st))).
    { exists (mkTimer p r t (compoundFrequency (run Math_pow evs (construct st)))).
      unfold exec. rewrite (calculate_valid V). reflexivity. }
    split; split; intros H.
    + exists p, r, t. exact V.
    + exact A.
    + contradiction.
    + exfalso. exact (valid_not_invalid V H).
  - split; split; intros H.
    + exfalso. exact (rejected_not_accepted I H).
    + destruct H as (p & r & t & V). exfalso. exact (valid_not_invalid V I).
    + exact I.
    + apply rejected_not_accepted. exact I.
Qed.

(** X4. The loading flag is never stuck: in every state the component reaches,
    when [isLoading] is up a callback is pending, and the next callback to run
    lowers the flag. *)
Theorem loading_implies_pending (st : Storage) (evs : list event) :
  isLoading (run Math_pow evs (construct st)) = true ->
  timers (run Math_pow evs (construct st)) <> [] /\
  forall now,
    isLoading (turn Math_pow (TimerFires now) (run Math_pow evs (construct st))) = false.
Proof.
  assert (Step : forall ev s,
             (isLoading s = true -> timers s <> []) ->
             isLoading (turn Math_pow ev s) = true ->
             timers (turn Math_pow ev s) <> []).
  { intros ev s I. unfold turn. rewrite flush_shape.
    cbn [isLoading timers].
    destruct ev; try exact I.
    - step_all. destruct (principal s), (rate s), (time s); try exact I.
      case_if; [exact I|]. cbn. intros _ E.
      apply (f_equal (@List.length Timer)) in E.
      rewrite length_app in E. cbn in E. lia.
    - step_all. destruct (timers s) eqn:Et; [cbn; rewrite Et; exact I|]. cbn.
      destruct (spread_slice (calculationHistory s)); cbn; discriminate.
    - step_all. destruct (blocked (localStorage s)); cbn; [exact I|].
      destruct (item (localStorage s)) as [[| |v]|]; exact I.
    - step_all. destruct (spread_slice (calculationHistory s)); exact I. }
  intros L. split.
  - revert L. apply (run_invariant (fun s => isLoading s = true -> timers s <> [])).
    + exact Step.
    + discriminate.
  - intros now. unfold turn. rewrite flush_shape. cbn [isLoading].
    assert (T : timers (run Math_pow evs (construct st)) <> []).
    { revert L.
      apply (run_invariant (fun s => isLoading s = true -> timers s <> [])).
      + exact Step.
      + discriminate. }
    generalize dependent (run Math_pow evs (construct st)). intros s _ T.
    step_all. destruct (timers s); [contradiction|].
    cbn. destruct (spread_slice (calculationHistory s)); reflexivity.
Qed.

End Reachable.

(** ** Requests and their callbacks *)

Section Requests.

Variable Math_pow : number -> number -> number.

Local Open Scope float_scope.

Lemma fire_pending (now : number) (s : State) (tm : Timer) (rest : list Timer) :
  timers s = tm :: rest ->
  exec (fire Math_pow now) s =
    exec (calculate_callback Math_pow tm now) (set_timers rest s).
Proof.
  intros H. unfold exec, fire, bind, read, write. rewrite H. reflexivity.
Qed.

(** What the callback leaves behind when the history is an array. *)
Lemma callback_on_array (tm : Timer) (now : number) (s : State) (items : list value) :
  calculationHistory s = VArr items ->
  exists res,
    exec (calculate_callback Math_pow tm now) s =
      set_calculationHistory (VArr (to_object res :: firstn 9 items))
        (set_isLoading false (set_calculationResult (Some res) s)) /\
    calculationResult (exec (calculate_callback Math_pow tm now) s) = Some res.
Proof.
  intros H. eexists. split; [|apply callback_result].
  unfold exec, calculate_callback, saveToHistory, calculationHistory_update,
    bind, read, write, lift, timeInYears.
  cbn [fst snd timeUnit set_calculationResult set_isLoading calculationHistory].
  rewrite H. destruct (timeUnit s); reflexivity.
Qed.

Lemma handler_timers (ev : event) (s : State) :
  keeps_timers ev ->
  timers (exec (handler Math_pow ev) s) = timers s /\
  calculationResult (exec (handler Math_pow ev) s) =
    match ev with Reset => None | _ => calculationResult s end.
Proof.
  intros K. destruct ev; try contradiction; try (split; reflexivity).
  - step_all. destruct (blocked (localStorage s)); cbn; [split; reflexivity|].
    destruct (item (localStorage s)) as [[| |v]|]; split; reflexivity.
  - step_all. destruct (spread_slice (calculationHistory s)); split; reflexivity.
Qed.

Lemma run_keeps_timers (evs : list event) (s : State) :
  Forall keeps_timers evs -> timers (run Math_pow evs s) = timers s.
Proof.
  revert s. induction evs as [|ev evs IH]; intros s F; [reflexivity|].
  inversion F as [|? ? K F']; subst. rewrite run_cons, IH by exact F'.
  unfold turn. rewrite flush_shape. cbn [timers].
  apply handler_timers. exact K.
Qed.

(** X5. The callback computes with the principal, rate, time and frequency
    that were in the fields when [calculate] was called, whatever is entered,
    toggled, reset, loaded or cleared before it runs; the time unit alone is the
    one in force when the callback runs. There is no cancellation. *)
Theorem callback_uses_captured_inputs (s : State) (p r t now : number)
    (evs : list event) :
  valid_input s p r t ->
  timers s = [] ->
  Forall keeps_timers evs ->
  exists res,
    calculationResult (run Math_pow (Calculate :: evs ++ [TimerFires now]) s)
      = Some res /\
    CalculationResult.principal res = p /\
    CalculationResult.rate res = r /\
    CalculationResult.time res = t /\
    CalculationResult.compoundFrequency res = compoundFrequency s /\
    CalculationResult.timeUnit res = timeUnit (run Math_pow (Calculate :: evs) s) /\
    CalculationResult.simpleInterest res =
      p * (r / 100) * timeInYears (timeUnit (run Math_pow (Calculate :: evs) s)) t /\
    CalculationResult.timestamp res = now.
Proof.
  intros V T F.
  rewrite !run_cons, run_snoc.
  set (s1 := turn Math_pow Calculate s).
  assert (T1 : timers s1 = [mkTimer p r t (compoundFrequency s)]).
  { unfold s1, turn. rewrite flush_shape. cbn [timers handler].
    unfold exec. rewrite (calculate_valid V). cbn. rewrite T. reflexivity. }
  set (s2 := run Math_pow evs s1).
  assert (T2 : timers s2 = [mkTimer p r t (compoundFrequency s)]).
  { unfold s2. rewrite run_keeps_timers by exact F. exact T1. }
  unfold turn. rewrite flush_shape. cbn [calculationResult handler].
  rewrite (fire_pending now s2 T2), callback_result.
  eexists. split; [reflexivity|]. cbn. repeat split.
Qed.

(** X6. When a callback runs while the history is an array, the result it
    displays is the entry it puts at the head of the history, the nine newest
    older entries follow unchanged, the loading flag is lowered and the
    callback leaves the queue. *)
Theorem callback_records_result (s : State) (tm : Timer) (rest : list Timer)
    (items : list value) (now : number) :
  timers s = tm :: rest ->
  calculationHistory s = VArr items ->
  exists res,
    calculationResult (turn Math_pow (TimerFires now) s) = Some res /\
    calculationHistory (turn Math_pow (TimerFires now) s)
      = VArr (to_object res :: firstn 9 items) /\
    CalculationResult.timestamp res = now /\
    isLoading (turn Math_pow (TimerFires now) s) = false /\
    timers (turn Math_pow (TimerFires now) s) = rest.
Proof.
  intros T H. unfold turn. rewrite flush_shape.
  cbn [calculationResult calculationHistory isLoading timers handler].
  rewrite (fire_pending now s T).
  destruct (@callback_on_array tm now (set_timers rest s) items H) as (res & E & R).
  exists res. rewrite E. cbn. repeat split.
  rewrite callback_result in R. injection R as <-. reflexivity.
Qed.

End Requests.

Section Double_request.

Variable Math_pow : number -> number -> number.

Local Open Scope float_scope.

Lemma turn_calculate_valid (s : State) (p r t : number) :
  valid_input s p r t ->
  valid_input (turn Math_pow Calculate s) p r t /\
  timers (turn Math_pow Calculate s) = timers s ++ [mkTimer p r t (compoundFrequency s)] /\
  compoundFrequency (turn Math_pow Calculate s) = compoundFrequency s /\
  calculationHistory (turn Math_pow Calculate s) = calculationHistory s /\
  timeUnit (turn Math_pow Calculate s) = timeUnit s /\
  isLoading (turn Math_pow Calculate s) = true /\
  calculationResult (turn Math_pow Calculate s) = None.
Proof.
  intros V. unfold turn. rewrite flush_shape.
  unfold valid_input.
  cbn [principal rate time timers compoundFrequency calculationHistory timeUnit
       isLoading calculationResult handler].
  unfold exec. rewrite (calculate_valid V). cbn.
  repeat split; apply V.
Qed.

Lemma turn_fire_explicit (s : State) (tm : Timer) (rest : list Timer) (now : number) :
  timers s = tm :: rest ->
  calculationResult (turn Math_pow (TimerFires now) s) =
    calculationResult (exec (calculate_callback Math_pow tm now) s) /\
  timeUnit (turn Math_pow (TimerFires now) s) = timeUnit s.
Proof.
  intros T. unfold turn. rewrite flush_shape. cbn [calculationResult timeUnit handler].
  rewrite (fire_pending Math_pow now s T), !callback_result. split; [reflexivity|].
  unfold exec, calculate_callback, saveToHistory, calculationHistory_update,
    bind, read, write, lift.
  cbn [fst snd timeUnit set_calculationResult set_isLoading set_timers calculationHistory].
  destruct (spread_slice (calculationHistory s)); reflexivity.
Qed.

(** X7. [calculate] does not look at the loading flag: a second request made
    while the first is pending is accepted, both callbacks run, and the
    history gets two entries that differ in their timestamp only. *)
Theorem double_request_recorded_twice (s : State) (p r t n1 n2 : number)
    (items : list value) :
  valid_input s p r t ->
  timers s = [] ->
  calculationHistory s = VArr items ->
  isLoading (turn Math_pow Calculate s) = true /\
  accepted (turn Math_pow Calculate s) /\
  exists res,
    CalculationResult.timestamp res = n1 /\
    calculationResult
      (run Math_pow [Calculate; Calculate; TimerFires n1; TimerFires n2] s)
      = Some (at_time n2 res) /\
    calculationHistory
      (run Math_pow [Calculate; Calculate; TimerFires n1; TimerFires n2] s)
      = VArr (to_object (at_time n2 res) :: to_object res :: firstn 8 items).
Proof.
  intros V T H.
  destruct (turn_calculate_valid V) as (V1 & T1 & N1 & H1 & U1 & L1 & _).
  rewrite T in T1. cbn [app] in T1.
  destruct (turn_calculate_valid V1) as (V2 & T2 & N2 & H2 & U2 & _).
  rewrite T1, N1 in T2. cbn [app] in T2. rewrite H1, H in H2.
  split; [exact L1|]. split.
  { eexists. unfold exec. rewrite (calculate_valid V1). reflexivity. }
  rewrite !run_cons. cbn [run fold_left].
  set (s2 := turn Math_pow Calculate (turn Math_pow Calculate s)) in *.
  destruct (callback_records_result Math_pow s2 n1 T2 H2) as (r1 & R1 & K1 & S1 & _ & Q1).
  destruct (turn_fire_explicit s2 n1 T2) as (E1 & W1).
  set (s3 := turn Math_pow (TimerFires n1) s2) in *.
  destruct (callback_records_result Math_pow s3 n2 Q1 K1) as (r2 & R2 & K2 & _).
  destruct (turn_fire_explicit s3 n2 Q1) as (E2 & _).
  rewrite callback_result in E1, E2. rewrite W1 in E2.
  rewrite R1 in E1. rewrite R2 in E2.
  injection E1 as E1. injection E2 as E2.
  exists r1. split; [exact S1|].
  assert (A : r2 = at_time n2 r1) by (rewrite E1, E2; reflexivity).
  rewrite R2, K2, A. split; [reflexivity|].
  change (firstn 9 (to_object r1 :: firstn 9 items))
    with (to_object r1 :: firstn 8 (firstn 9 items)).
  rewrite firstn_firstn. reflexivity.
Qed.

End Double_request.

(** ** The history and the storage slot over a whole run *)

Lemma jsstring_eqb_eq (a b : jsstring) : jsstring_eqb a b = true -> a = b.
Proof.
  revert b. induction a as [|x a IH]; intros [|y b]; cbn; intros H;
    try discriminate; [reflexivity|].
  apply andb_prop in H. destruct H as [Hx Hab].
  apply N.eqb_eq in Hx. rewrite (IH b Hab), Hx. reflexivity.
Qed.

Lemma sameValue_eq (a b : value) : sameValue a b = true -> a = b.
Proof.
  destruct a, b; cbn; intros H; try discriminate.
  - reflexivity.
  - apply Bool.eqb_prop in H. congruence.
  - apply FloatAxioms.Leibniz.eqb_spec in H. congruence.
  - apply jsstring_eqb_eq in H. congruence.
Qed.

Lemma flush_mirrors (s : State) :
  working (localStorage s) ->
  effectPending s = true \/ mirrored s ->
  working (localStorage (exec flushEffects s)) /\
  effectPending (exec flushEffects s) = false /\
  mirrored (exec flushEffects s).
Proof.
  intros W H. unfold mirrored. rewrite flush_history.
  destruct (effectPending s) eqn:P.
  - rewrite (flush_writes s P W). repeat split.
    rewrite flush_shape. reflexivity.
  - destruct H as [H|H]; [discriminate|].
    rewrite (flush_idle s P). repeat split; try apply W; assumption.
Qed.

Section Slot.

Variable Math_pow : number -> number -> number.

(** A handler leaves the history and the pending flag alone, or writes the
    history signal. *)
Lemma handler_history_cases (ev : event) (s : State) :
  (calculationHistory (exec (handler Math_pow ev) s) = calculationHistory s /\
   effectPending (exec (handler Math_pow ev) s) = effectPending s) \/
  effectPending (exec (handler Math_pow ev) s) =
    effectPending s
    || negb (sameValue (calculationHistory s)
               (calculationHistory (exec (handler Math_pow ev) s))).
Proof.
  destruct ev; try (left; split; reflexivity).
  - step_all. destruct (principal s), (rate s), (time s);
      try (left; split; reflexivity).
    case_if; left; split; reflexivity.
  - step_all. destruct (timers s); [left; split; reflexivity|]. cbn.
    destruct (spread_slice (calculationHistory s));
      [left; split; reflexivity | right; reflexivity].
  - right. reflexivity.
  - step_all. destruct (blocked (localStorage s)); cbn; [right; reflexivity|].
    destruct (item (localStorage s)) as [[| |v]|]; cbn;
      try (left; split; reflexivity); right; reflexivity.
  - step_all. destruct (spread_slice (calculationHistory s));
      [left; split; reflexivity | right; reflexivity].
Qed.

Lemma turn_mirrors (ev : event) (s : State) :
  working (localStorage s) ->
  effectPending s = true \/ mirrored s ->
  working (localStorage (turn Math_pow ev s)) /\
  effectPending (turn Math_pow ev s) = false /\
  mirrored (turn Math_pow ev s).
Proof.
  intros W H. unfold turn. apply flush_mirrors.
  - rewrite handler_storage. exact W.
  - unfold mirrored. rewrite handler_storage.
    destruct (handler_history_cases ev s) as [[Eh Ep] | Ep].
    + rewrite Eh, Ep. exact H.
    + rewrite Ep.
      destruct (sameValue (calculationHistory s)
                  (calculationHistory (exec (handler Math_pow ev) s))) eqn:Sv.
      * apply sameValue_eq in Sv. rewrite <- Sv, orb_false_r. exact H.
      * left. apply orb_true_r.
Qed.

(** X8. With a storage that can be read and written, after every turn of the
    event loop from the construction of the component on, no effect is left
    pending and the slot holds exactly what [JSON.stringify] makes of the
    history in memory. *)
Theorem slot_mirrors_history (st : Storage) (evs : list event) :
  working st ->
  evs <> [] ->
  effectPending (run Math_pow evs (construct st)) = false /\
  localStorage (run Math_pow evs (construct st)) =
    mkStorage
      (Some (JSON_stringify (calculationHistory (run Math_pow evs (construct st)))))
      false false.
Proof.
  intros W Ne.
  destruct (exists_last Ne) as (evs' & ev & ->). rewrite run_snoc.
  assert (I : working (localStorage (run Math_pow evs' (construct st))) /\
              (effectPending (run Math_pow evs' (construct st)) = true \/
               mirrored (run Math_pow evs' (construct st)))).
  { apply (run_invariant Math_pow
             (fun s => working (localStorage s) /\
                       (effectPending s = true \/ mirrored s))).
    - intros e s [Ws Hs]. destruct (turn_mirrors e Ws Hs) as (W' & _ & M').
      split; [exact W' | right; exact M'].
    - split; [exact W | left; reflexivity]. }
  destruct I as [W' H'].
  destruct (turn_mirrors ev W' H') as ([B F] & P & M).
  split; [exact P|].
  unfold mirrored in M.
  destruct (localStorage (turn Math_pow ev (run Math_pow evs' (construct st))))
    as [i b f]. cbn in *. subst. reflexivity.
Qed.

(** X9. A history survives a restart as far as JSON carries it: when a session
    with a working storage ends, a new session on that storage whose first act
    is to load (before the effect has run) starts with what
    [JSON.parse (JSON.stringify history)] makes of the old history. *)
Theorem history_survives_restart (st : Storage) (evs : list event) :
  working st ->
  evs <> [] ->
  calculationHistory
    (run Math_pow [LoadHistory]
       (construct (localStorage (run Math_pow evs (construct st)))))
  = json_image (calculationHistory (run Math_pow evs (construct st))).
Proof.
  intros W Ne. destruct (slot_mirrors_history W Ne) as [_ E].
  rewrite E. cbn [run fold_left]. unfold turn. rewrite flush_history.
  reflexivity.
Qed.

(** X10. If the effect has its first run before [loadHistoryFromStorage], the
    stored history is lost: the effect overwrites the slot with the empty
    array, whatever it held, and that is what the load reads. *)
Theorem effect_before_load_loses_history (st : Storage) :
  working st ->
  calculationHistory (run Math_pow [Idle; LoadHistory] (construct st)) = VArr [] /\
  item (localStorage (run Math_pow [Idle; LoadHistory] (construct st)))
    = Some (Doc (VArr [])) /\
  item (localStorage (run Math_pow [Idle] (construct st))) = Some (Doc (VArr [])).
Proof.
  intros [B F]. destruct st as [i b f]. cbn in B, F. subst.
  repeat split.
Qed.

(** X11. When the storage cannot be written (access denied, or no space left),
    the effect returns normally, reports on the console, and changes neither
    the history in memory nor the slot; over a whole run the slot keeps what it
    held. *)
Theorem unwritable_storage_is_not_fatal (s : State) :
  blocked (localStorage s) = true \/ full (localStorage s) = true ->
  (effectPending s = true ->
   flushEffects s =
     (Return tt,
      set_console ("Could not save history to localStorage"%string :: console s)
        (set_effectPending false s))) /\
  forall evs,
    localStorage (run Math_pow evs s) = localStorage s.
Proof.
  intros U.
  assert (O : blocked (localStorage s) || full (localStorage s) = true).
  { destruct U as [-> | ->]; [reflexivity | apply orb_true_r]. }
  split.
  - intros P. step_m. rewrite P. cbn. rewrite O. reflexivity.
  - intros evs.
    apply (run_invariant Math_pow (fun s' => localStorage s' = localStorage s));
      [|reflexivity].
    intros ev s' E. unfold turn.
    destruct (flush_storage (exec (handler Math_pow ev) s')) as [K | (_ & B & F & _)].
    + rewrite K, handler_storage. exact E.
    + rewrite handler_storage, E in B, F. rewrite B, F in O. discriminate.
Qed.

(** X12. Recording any number of results, oldest first, on a history within
    capacity leaves the ten newest entries, newest first: the recorded results
    in reverse order, followed by as many of the older entries as still fit. *)
Theorem recording_keeps_ten_newest (results : list CalculationResult.t) (s : State)
    (items : list value) :
  calculationHistory s = VArr items ->
  List.length items <= 10 ->
  calculationHistory (run Math_pow (map SaveToHistory results) s) =
    VArr (firstn 10 (rev (map to_object results) ++ items)) /\
  (10 <= List.length results ->
   calculationHistory (run Math_pow (map SaveToHistory results) s) =
     VArr (firstn 10 (rev (map to_object results)))).
Proof.
  intros H L. rewrite (run_saves Math_pow results s H L). split; [reflexivity|].
  intros G. rewrite firstn_app.
  replace (10 - List.length (rev (map to_object results))) with 0
    by (rewrite length_rev, length_map; lia).
  cbn [firstn]. rewrite app_nil_r. reflexivity.
Qed.

(** X13. A slot that holds JSON other than an array or a string (say [null],
    a number or an object) is loaded as it is; from then on [saveToHistory]
    throws a [TypeError] and changes nothing, so a callback still displays its
    result but does not record it, until [clearHistory] puts an array back. *)
Theorem unsliceable_history_blocks_recording (s : State) (v : value) :
  blocked (localStorage s) = false ->
  item (localStorage s) = Some (Doc v) ->
  sliceable v = false ->
  calculationHistory (exec loadHistoryFromStorage s) = v /\
  (forall result,
     saveToHistory result (exec loadHistoryFromStorage s)
       = (Throw TypeError, exec loadHistoryFromStorage s)) /\
  (forall tm now,
     fst (calculate_callback Math_pow tm now (exec loadHistoryFromStorage s))
       = Throw TypeError /\
     calculationHistory
       (exec (calculate_callback Math_pow tm now) (exec loadHistoryFromStorage s)) = v /\
     exists res,
       calculationResult
         (exec (calculate_callback Math_pow tm now) (exec loadHistoryFromStorage s))
       = Some res) /\
  (forall result,
     calculationHistory
       (exec (saveToHistory result)
          (exec clearHistory (exec loadHistoryFromStorage s)))
     = VArr [to_object result]).
Proof.
  intros B I S. rewrite (load_document s B I).
  assert (E : spread_slice v = inl TypeError) by (destruct v; try discriminate; reflexivity).
  split; [reflexivity|]. split; [|split].
  - intros result. step_m. rewrite E. reflexivity.
  - intros tm now. rewrite callback_result.
    unfold exec, calculate_callback, saveToHistory, calculationHistory_update,
      bind, read, write, lift.
    cbn [fst snd timeUnit set_calculationResult set_isLoading set_calculationHistory
         calculationHistory].
    rewrite E. cbn. repeat split. eexists. reflexivity.
  - intros result. reflexivity.
Qed.

End Slot.

(** ** The report label, the tooltip and reset *)

Section Presentation.

Variable Math_pow : number -> number -> number.

Local Open Scope float_scope.

Lemma label_simple (n : number) :
  getFrequencyText n = "Simple"%string <-> PrimFloat.eqb n 0 = true.
Proof.
  unfold getFrequencyText.
  destruct (PrimFloat.eqb n 0); [split; reflexivity|].
  destruct (PrimFloat.eqb n 1); [split; discriminate|].
  destruct (PrimFloat.eqb n 4); [split; discriminate|].
  destruct (PrimFloat.eqb n 12); split; discriminate.
Qed.

Lemma label_compounded (n : number) :
  In (getFrequencyText n) ["Annually"; "Quarterly"; "Monthly"]%string ->
  gt n 0 = true.
Proof.
  unfold getFrequencyText.
  destruct (PrimFloat.eqb n 0) eqn:E0.
  { cbn. intros [H | [H | [H | []]]]; discriminate. }
  destruct (PrimFloat.eqb n 1) eqn:E1.
  { intros _. apply (eq_positive_gt (c := 1)); [|exact E1].
    do 2 eexists. vm_compute. reflexivity. }
  destruct (PrimFloat.eqb n 4) eqn:E4.
  { intros _. apply (eq_positive_gt (c := 4)); [|exact E4].
    do 2 eexists. vm_compute. reflexivity. }
  destruct (PrimFloat.eqb n 12) eqn:E12.
  { intros _. apply (eq_positive_gt (c := 12)); [|exact E12].
    do 2 eexists. vm_compute. reflexivity. }
  cbn. intros [H | [H | [H | []]]]; discriminate.
Qed.

(** X14. The label the report prints for a result agrees with how the result
    was computed: a result labelled Simple has compound interest [0] and a
    compound total equal to the simple total; a result labelled Annually,
    Quarterly or Monthly was compounded with the power formula. *)
Theorem frequency_label_matches_computation (tm : Timer) (now : number) (s : State)
    (res : CalculationResult.t) :
  calculationResult (exec (calculate_callback Math_pow tm now) s) = Some res ->
  (getFrequencyText (CalculationResult.compoundFrequency res) = "Simple"%string ->
   interest (CalculationResult.compoundDetail res) = 0 /\
   total (CalculationResult.compoundDetail res) = CalculationResult.totalSimple res) /\
  (In (getFrequencyText (CalculationResult.compoundFrequency res))
      ["Annually"; "Quarterly"; "Monthly"]%string ->
   total (CalculationResult.compoundDetail res) =
     CalculationResult.principal res
     * Math_pow
         (1 + CalculationResult.rate res / 100 / CalculationResult.compoundFrequency res)
         (CalculationResult.compoundFrequency res
          * timeInYears (CalculationResult.timeUnit res) (CalculationResult.time res)) /\
   interest (CalculationResult.compoundDetail res) =
     total (CalculationResult.compoundDetail res) - CalculationResult.principal res).
Proof.
  intros H. rewrite callback_result in H. injection H as <-.
  cbn [CalculationResult.compoundFrequency CalculationResult.compoundDetail
       CalculationResult.totalSimple CalculationResult.principal
       CalculationResult.rate CalculationResult.time CalculationResult.timeUnit].
  split.
  - intros L. apply label_simple in L. rewrite (eq_zero_not_gt L). split; reflexivity.
  - intros L. apply label_compounded in L. rewrite L. split; reflexivity.
Qed.

(** X15. A tooltip text is shown exactly for the four field names the
    component knows; [hideTooltip] and [reset] remove it; and showing a tooltip
    does not interfere with a request: [calculate] does the same before or
    after it. *)
Theorem tooltip_behaviour (s : State) (field : string) :
  (tooltipContent (exec (showTooltip field) s) <> None <->
     In field ["principal"; "rate"; "time"; "compounding"]%string) /\
  tooltipContent (exec hideTooltip (exec (showTooltip field) s)) = None /\
  tooltipContent (exec reset (exec (showTooltip field) s)) = None /\
  exec calculate (exec (showTooltip field) s)
    = exec (showTooltip field) (exec calculate s).
Proof.
  split; [|split; [reflexivity|split; [reflexivity|]]].
  - unfold tooltipContent, exec, showTooltip, write. cbn.
    destruct (String.eqb field "principal") eqn:E1;
      [apply String.eqb_eq in E1; subst; split; [intros _; cbn; auto | discriminate]|].
    destruct (String.eqb field "rate") eqn:E2;
      [apply String.eqb_eq in E2; subst; split; [intros _; cbn; auto | discriminate]|].
    destruct (String.eqb field "time") eqn:E3;
      [apply String.eqb_eq in E3; subst; split; [intros _; cbn; auto | discriminate]|].
    destruct (String.eqb field "compounding") eqn:E4;
      [apply String.eqb_eq in E4; subst; split; [intros _; cbn; auto | discriminate]|].
    apply String.eqb_neq in E1, E2, E3, E4.
    split; [intros H; contradiction|].
    intros [H | [H | [H | [H | []]]]]; congruence.
  - unfold exec, showTooltip, calculate, setTimeout, bind, read, write, ret. cbn.
    destruct (principal s), (rate s), (time s); try reflexivity.
    case_if; reflexivity.
Qed.

(** X16. [reset] puts back the default inputs, which are valid, so that a
    request right after it is accepted; it removes the displayed result and the
    tooltip; it leaves the history, the storage, the pending callbacks and the
    loading flag as they are; doing it twice is doing it once. *)
Theorem reset_restores_defaults (s : State) :
  valid_input (exec reset s) 10000 5 10 /\
  compoundFrequency (exec reset s) = 1 /\
  timeUnit (exec reset s) = years /\
  calculationResult (exec reset s) = None /\
  activeTooltip (exec reset s) = None /\
  accepted (exec reset s) /\
  calculationHistory (exec reset s) = calculationHistory s /\
  localStorage (exec reset s) = localStorage s /\
  timers (exec reset s) = timers s /\
  isLoading (exec reset s) = isLoading s /\
  exec reset (exec reset s) = exec reset s.
Proof.
  assert (V : valid_input (exec reset s) 10000 5 10) by (repeat split).
  repeat split.
  eexists. unfold exec at 1. rewrite (calculate_valid V). reflexivity.
Qed.

End Presentation.

(** ** The properties above on examples *)

Section More_examples.

Local Open Scope float_scope.

Lemma nan_entry_rejected_witness :
  isNaN nan = true /\
  principal (exec (onPrincipalChange nan) fresh) = None /\
  calculate (exec (onPrincipalChange nan) fresh)
    = (Return tt, exec (onPrincipalChange nan) fresh).
Proof.
  split; [reflexivity|].
  destruct (@nan_entry_rejected nan fresh eq_refl) as (P & _ & _ & C & _).
  split; [exact P | exact C].
Defined.

Lemma loading_implies_pending_witness :
  isLoading (run sample_pow [Calculate] fresh) = true /\
  timers (run sample_pow [Calculate] fresh) <> [] /\
  isLoading (run sample_pow [Calculate; TimerFires sample_now] fresh) = false.
Proof.
  split; [reflexivity|].
  destruct (@loading_implies_pending sample_pow (mkStorage None false false)
              [Calculate] eq_refl) as (T & L).
  split; [exact T | exact (L sample_now)].
Defined.

Lemma callback_uses_captured_inputs_witness :
  exists res,
    calculationResult
      (run sample_pow
         [Calculate; PrincipalChange 1; ToggleTimeUnit; TimerFires sample_now] fresh)
      = Some res /\
    CalculationResult.principal res = 10000 /\
    CalculationResult.timeUnit res = months /\
    CalculationResult.simpleInterest res = 10000 * (5 / 100) * (10 / 12).
Proof.
  destruct (@callback_uses_captured_inputs sample_pow fresh 10000 5 10 sample_now
              [PrincipalChange 1; ToggleTimeUnit])
    as (res & R & P & _ & _ & _ & U & S & _).
  - exact fresh_valid.
  - reflexivity.
  - repeat constructor.
  - exists res. split; [exact R|]. split; [exact P|]. split; [exact U | exact S].
Defined.

Lemma callback_records_result_witness :
  exists res,
    calculationResult (run sample_pow [Calculate; TimerFires sample_now] fresh)
      = Some res /\
    calculationHistory (run sample_pow [Calculate; TimerFires sample_now] fresh)
      = VArr [to_object res] /\
    isLoading (run sample_pow [Calculate; TimerFires sample_now] fresh) = false.
Proof.
  destruct (@callback_records_result sample_pow (run sample_pow [Calculate] fresh)
              (mkTimer 10000 5 10 1) [] [] sample_now eq_refl eq_refl)
    as (res & R & H & _ & L & _).
  exists res. split; [exact R|]. split; [exact H | exact L].
Defined.

Lemma double_request_recorded_twice_witness :
  exists res,
    CalculationResult.timestamp res = 1 /\
    calculationHistory
      (run sample_pow [Calculate; Calculate; TimerFires 1; TimerFires 2] fresh)
      = VArr [to_object (at_time 2 res); to_object res].
Proof.
  destruct (@double_request_recorded_twice sample_pow fresh 10000 5 10 1 2 []
              fresh_valid eq_refl eq_refl) as (_ & _ & res & T & _ & H).
  exists res. split; [exact T | exact H].
Defined.

Lemma slot_mirrors_history_witness :
  localStorage (run sample_pow [SaveToHistory overflow_result] fresh)
  = mkStorage
      (Some (JSON_stringify
               (calculationHistory (run sample_pow [SaveToHistory overflow_result] fresh))))
      false false.
Proof.
  refine (proj2 (@slot_mirrors_history sample_pow (mkStorage None false false)
                   [SaveToHistory overflow_result] _ _)).
  - split; reflexivity.
  - discriminate.
Defined.

Lemma history_survives_restart_witness :
  calculationHistory
    (run sample_pow [LoadHistory]
       (construct
          (localStorage
             (run sample_pow [SaveToHistory sample_result; Calculate] fresh))))
  = VArr [to_object sample_result].
Proof.
  refine (eq_trans
            (@history_survives_restart sample_pow (mkStorage None false false)
               [SaveToHistory sample_result; Calculate] _ _) _).
  - split; reflexivity.
  - discriminate.
  - reflexivity.
Defined.

Lemma effect_before_load_loses_history_witness :
  item overfull_storage = Some (Doc (VArr eleven)) /\
  calculationHistory (run sample_pow [Idle; LoadHistory] (construct overfull_storage))
    = VArr [].
Proof.
  split; [reflexivity|].
  refine (proj1 (@effect_before_load_loses_history sample_pow overfull_storage _)).
  split; reflexivity.
Defined.

Lemma unwritable_storage_is_not_fatal_witness :
  calculationHistory
    (run sample_pow [SaveToHistory sample_result] (construct (mkStorage None false true)))
    = VArr [to_object sample_result] /\
  localStorage
    (run sample_pow [SaveToHistory sample_result] (construct (mkStorage None false true)))
    = mkStorage None false true.
Proof.
  split; [reflexivity|].
  refine (proj2 (@unwritable_storage_is_not_fatal sample_pow
                   (construct (mkStorage None false true)) _) _).
  right. reflexivity.
Defined.

Lemma recording_keeps_ten_newest_witness :
  calculationHistory
    (run sample_pow
       (map SaveToHistory [sample_result; overflow_result])
       (run sample_pow (map SaveToHistory (repeat sample_result 10)) fresh))
  = VArr (to_object overflow_result :: repeat (to_object sample_result) 9).
Proof.
  refine (eq_trans
            (proj1 (@recording_keeps_ten_newest sample_pow
                      [sample_result; overflow_result]
                      (run sample_pow (map SaveToHistory (repeat sample_result 10)) fresh)
                      (repeat (to_object sample_result) 10) _ _)) _).
  - reflexivity.
  - cbn. lia.
  - reflexivity.
Defined.

Lemma unsliceable_history_blocks_recording_witness :
  saveToHistory sample_result
    (exec loadHistoryFromStorage (construct (mkStorage (Some (Doc VNull)) false false)))
  = (Throw TypeError,
     exec loadHistoryFromStorage (construct (mkStorage (Some (Doc VNull)) false false))).
Proof.
  refine (proj1 (proj2 (@unsliceable_history_blocks_recording sample_pow
                          (construct (mkStorage (Some (Doc VNull)) false false))
                          VNull _ _ _)) sample_result); reflexivity.
Defined.

Lemma frequency_label_matches_computation_witness :
  getFrequencyText (CalculationResult.compoundFrequency (outcome months_simple sample_now))
    = "Simple"%string /\
  interest (CalculationResult.compoundDetail (outcome months_simple sample_now)) = 0 /\
  getFrequencyText (CalculationResult.compoundFrequency (outcome fresh sample_now))
    = "Annually"%string /\
  interest (CalculationResult.compoundDetail (outcome fresh sample_now)) =
    total (CalculationResult.compoundDetail (outcome fresh sample_now)) - 10000.
Proof.
  split; [reflexivity|]. split.
  - refine (proj1 (proj1 (@frequency_label_matches_computation sample_pow
                            (mkTimer 1000 12 6 0) sample_now months_simple
                            (outcome months_simple sample_now) _) _));
      reflexivity.
  - split; [reflexivity|].
    refine (proj2 (proj2 (@frequency_label_matches_computation sample_pow
                            (mkTimer 10000 5 10 1) sample_now fresh
                            (outcome fresh sample_now) _) _)).
    + reflexivity.
    + cbn. auto.
Defined.

End More_examples.
